(** * The authorization gate and the signed proxy of [api/PclusterApiHandler.py]

    A shallow embedding of the request gate ([authenticate],
    [authenticated]), the request signer ([sigv4_request]) and the proxy
    resource ([PclusterApiHandler]) of the ParallelCluster manager
    back end, together with the properties its specification states about
    them, followed by the local endpoints of the same module (the identity,
    the login, the instance, job, role and configuration endpoints) and
    what their code guarantees.

    Python values are modelled as the handler uses them: [str] as [string],
    [None]-or-[str] as [option string], a [dict] whose iteration order is
    observable (the query parameters) as an association list with distinct
    keys, a [set] as a [gset], the process environment as a [gmap], raised
    exceptions as the [Raise] branch of a result type, and the outbound HTTP
    calls as a log threaded through a small state-and-exception monad. *)

From Stdlib Require Import ZArith Ascii String.
From stdpp Require Import base strings list gmap.

Local Open Scope string_scope.

(** ** Python strings *)

Module Py.

(** Truth value of a [str]: only the empty string is false. *)
Definition str_truthy (s : string) : bool :=
  match s with EmptyString => false | String _ _ => true end.

(** [str(x)] inside an f-string, for a value that is a [str] or [None]. *)
Definition fmt (o : option string) : string := default "None" o.

Fixpoint is_prefix (p s : string) : bool :=
  match p, s with
  | EmptyString, _ => true
  | String a p', String b s' => if Ascii.eqb a b then is_prefix p' s' else false
  | String _ _, EmptyString => false
  end.

(** [s.replace(old, new)] for a non-empty [old]: the occurrences are
    found left to right and do not overlap.  [skip] counts the characters
    of a match that are still to be dropped. *)
Fixpoint replace_from (old new : string) (skip : nat) (s : string) : string :=
  match s with
  | EmptyString => EmptyString
  | String c s' =>
      match skip with
      | S k => replace_from old new k s'
      | O =>
          if is_prefix old s
          then new +:+ replace_from old new (String.length old - 1) s'
          else String c (replace_from old new 0 s')
      end
  end.

Definition replace (old new s : string) : string := replace_from old new 0 s.

(** [s.split(sep, maxsplit)] for a one-character separator: at most
    [maxsplit] cuts, from the left; the rest of the string is the last
    field. *)
Fixpoint split_max (sep : ascii) (maxsplit : nat) (s : string) : list string :=
  match s with
  | EmptyString => [EmptyString]
  | String c s' =>
      if Ascii.eqb c sep then
        match maxsplit with
        | O => [s]
        | S m => EmptyString :: split_max sep m s'
        end
      else
        match split_max sep maxsplit s' with
        | field :: fields => String c field :: fields
        | [] => [String c EmptyString]
        end
  end.

(** [s.split(sep)]: no bound on the cuts (a string has fewer separators
    than its length plus one). *)
Definition split (sep : ascii) (s : string) : list string :=
  split_max sep (String.length s) s.

(** [sep.join(parts)]. *)
Fixpoint join (sep : string) (parts : list string) : string :=
  match parts with
  | [] => EmptyString
  | [p] => p
  | p :: rest => p +:+ sep +:+ join sep rest
  end.

Definition ascii_lower (c : ascii) : ascii :=
  let n := nat_of_ascii c in
  if (65 <=? n)%nat && (n <=? 90)%nat then ascii_of_nat (n + 32) else c.

Fixpoint lower (s : string) : string :=
  match s with
  | EmptyString => EmptyString
  | String c s' => String (ascii_lower c) (lower s')
  end.

(** Number of occurrences of a character. *)
Fixpoint count (sep : ascii) (s : string) : nat :=
  match s with
  | EmptyString => 0
  | String c s' => (if Ascii.eqb c sep then 1 else 0) + count sep s'
  end.

End Py.

(** ** JSON documents, exceptions, results *)

#[local] Set Warnings "-register-all".
Inductive Json :=
| JNull
| JBool (b : bool)
| JNum (n : Z)
| JStr (s : string)
| JArr (items : list Json)
| JObj (members : list (string * Json)).

(** Python's truth value of a decoded JSON document ([None], [False], [0],
    the empty string, list and dict are false). *)
Definition truthy (j : Json) : bool :=
  match j with
  | JNull => false
  | JBool b => b
  | JNum n => negb (n =? 0)%Z
  | JStr s => Py.str_truthy s
  | JArr items => match items with [] => false | _ => true end
  | JObj members => match members with [] => false | _ => true end
  end.

(** The exceptions the modelled code can raise or let through. *)
Inductive exn :=
| AttributeError            (* a method called on [None] *)
| ValueError                (* tuple unpacking of the wrong length *)
| TypeError                 (* calling [None] *)
| KeyError (key : string)   (* [dict.pop] of an absent key *)
| ExpiredSignatureError     (* [jose.jwt]: the token is past its expiry *)
| JWSSignatureError         (* [jose.exceptions]: raised inside [jose.jws] on a bad
                               signature; [jwt.decode] does not let it out *)
| JWTError                  (* [jose.jwt]: the token does not decode, a signature
                               that does not verify included *)
| NoCredentialsError        (* botocore: no credentials to sign with *)
| JSONDecodeError           (* [Response.json()] on a body that is not JSON *)
| BadRequest                (* [request.json] on an unparsable body *)
| ConnectionError           (* transport failure of the outbound call *)
| HTTPException (code : Z). (* [flask.abort(code)] *)

Inductive result (A : Type) :=
| Return (a : A)
| Raise (e : exn).
Arguments Return {A} a.
Arguments Raise {A} e.

#[global] Instance exn_eq_dec : EqDecision exn.
Proof. solve_decision. Defined.

(** ** Dictionaries with observable order *)

(** A Python [dict] of strings: distinct keys, in insertion order. *)
Module Dict.

Definition t := list (string * string).

(** [d.get(k)] *)
Fixpoint get (k : string) (d : t) : option string :=
  match d with
  | [] => None
  | (k', v) :: d' => if decide (k' = k) then Some v else get k d'
  end.

(** The items left once the key [k] is gone; the others keep their
    order. *)
Definition remove (k : string) (d : t) : t :=
  List.filter (fun kv => negb (bool_decide (kv.1 = k))) d.

(** [d.pop(k)] with no default: the binding is removed and returned, and
    an absent key raises [KeyError]. *)
Definition pop (k : string) (d : t) : result (string * t) :=
  match get k d with
  | Some v => Return (v, remove k d)
  | None => Raise (KeyError k)
  end.

(** [{**m}] for a multi-valued query-string mapping [m], given by its
    pairs in the order of the query string: the keys in order of first
    occurrence, each with the value the mapping's item access gives, which
    is the first one. *)
Fixpoint of_multidict (m : list (string * string)) : t :=
  match m with
  | [] => []
  | (k, v) :: m' => (k, v) :: remove k (of_multidict m')
  end.

End Dict.

(** ** Configuration, requests and responses *)

(** The module globals as they stand once the module is loaded (each a
    [str] or [None]) and the process environment, which [running_local] and
    [disable_auth] read on every call. *)
Record Config := {
  environ : gmap string string;
  USER_POOL_ID : option string;
  AUTH_PATH : option string;
  API_BASE_URL : option string;
  CLIENT_ID : option string;
  SITE_URL : option string;
}.

(** What the handlers read of Flask's [request]. *)
Record Request := {
  cookies : gmap string string;
  (** the query string, pair by pair *)
  args : list (string * string);
  (** the header lines; names compare without case *)
  headers : list (string * string);
  (** what reading [request.json] gives or raises *)
  json : result Json;
}.

(** [request.args.get(k)]: the first value of the key, or [None]. *)
Definition args_get (k : string) (r : Request) : option string :=
  Dict.get k (args r).

(** [k in request.headers] and [request.headers.get(k)]. *)
Definition headers_get (k : string) (r : Request) : option string :=
  snd <$> List.find (fun h => bool_decide (Py.lower h.1 = Py.lower k)) (headers r).

Definition headers_contains (k : string) (r : Request) : bool :=
  bool_decide (is_Some (headers_get k r)).

Record Cookie := {
  cookie_name : string;
  cookie_value : string;
  cookie_expires : option Z;
}.

(** A Flask response object, as far as [redirect] and [set_cookie] build
    it. *)
Record FlaskResponse := {
  status : Z;
  location : string;
  set_cookies : list Cookie;
}.

Definition redirect (target : string) (code : Z) : FlaskResponse :=
  {| status := code; location := target; set_cookies := [] |}.

Definition set_cookie (name value : string) (expires : option Z)
    (resp : FlaskResponse) : FlaskResponse :=
  {| status := status resp;
     location := location resp;
     set_cookies := (set_cookies resp ++
       [{| cookie_name := name; cookie_value := value; cookie_expires := expires |}])%list |}.

#[global] Instance Cookie_eq_dec : EqDecision Cookie.
Proof. solve_decision. Defined.
#[global] Instance FlaskResponse_eq_dec : EqDecision FlaskResponse.
Proof. solve_decision. Defined.

(** The decoded token: the claims the gate and the identity endpoint
    read. *)
Record Claims := {
  cognito_groups : option (list string);
  username : option string;
}.

(** ** The outbound side *)

(** One call of [requests.<verb>(url, data=, headers=, timeout=)]. *)
Record OutCall := {
  call_verb : string;
  call_url : string;
  call_data : option string;
  call_headers : gmap string string;
  call_timeout : option Z;
}.

(** The response of the back end: its status code and its body, which
    either parses as a JSON document or does not. *)
Inductive Body :=
| JsonBody (j : Json)
| RawBody (text : string).

Record Response := {
  status_code : Z;
  body : Body;
}.

(** [response.json()] *)
Definition response_json (r : Response) : result Json :=
  match body r with
  | JsonBody j => Return j
  | RawBody _ => Raise JSONDecodeError
  end.

(** The collaborators outside this module: the token library together
    with the key-set fetch, botocore's credential lookup and signer, the
    JSON serializer and the HTTP transport. *)
Record Externals := {
  (** [jwt.decode(token, requests.get(jwks_url).json())] *)
  jwt_verify : string -> string -> result Claims;
  (** [session.get_credentials()] *)
  get_credentials : option string;
  (** the headers of the prepared request after [SigV4Auth(...).add_auth]:
      credentials, service, region, method, url, data *)
  sigv4_headers :
    string -> string -> string -> string -> string -> option string -> gmap string string;
  (** the URL of the prepared request *)
  prepare_url : string -> string;
  json_dumps : Json -> string;
  (** what the back end answers to a call, or the transport's failure *)
  send : OutCall -> result Response;
}.

(** The log of the outbound calls made so far, oldest first. *)
Definition World := list OutCall.

(** Computations that may raise and may call out. *)
Definition M (A : Type) : Type := World -> result A * World.

Definition ret {A} (a : A) : M A := fun w => (Return a, w).
Definition raise {A} (e : exn) : M A := fun w => (Raise e, w).
Definition lift {A} (r : result A) : M A := fun w => (r, w).
Definition bind {A B} (m : M A) (k : A -> M B) : M B :=
  fun w =>
    match m w with
    | (Return a, w') => k a w'
    | (Raise e, w') => (Raise e, w')
    end.

Declare Scope py_scope.
Delimit Scope py_scope with py.
Notation "x <- m ;; k" := (bind m (fun x => k))
  (at level 100, m at next level, right associativity) : py_scope.
Notation "m ;;; k" := (bind m (fun _ => k))
  (at level 100, right associativity) : py_scope.

(** ** The authorization gate *)

Section Gate.

Variable ext : Externals.
Variable cfg : Config.
(** Flask's request in whose context the gate runs. *)
Variable request : Request.

(** [not os.getenv("AWS_LAMBDA_FUNCTION_NAME")] *)
Definition running_local : bool :=
  match environ cfg !! "AWS_LAMBDA_FUNCTION_NAME" with
  | Some v => negb (Py.str_truthy v)
  | None => true
  end.

(** [os.getenv("ENABLE_AUTH") == "false"] *)
Definition disable_auth : bool :=
  bool_decide (environ cfg !! "ENABLE_AUTH" = Some "false").

Definition jwt_decode (token : string) (user_pool_id : option string) : result Claims :=
  match user_pool_id with
  | None => Raise AttributeError
  | Some pool =>
      let region := hd EmptyString (Py.split "_" pool) in
      let jwks_url :=
        "https://cognito-idp." +:+ region +:+ ".amazonaws.com/" +:+ pool
          +:+ "/.well-known/jwks.json" in
      jwt_verify ext jwks_url token
  end.

Definition auth_redirect : FlaskResponse :=
  let redirect_uri := Py.fmt (SITE_URL cfg) +:+ "/login" in
  let auth_redirect_path :=
    Py.fmt (AUTH_PATH cfg) +:+ "/login?response_type=code&client_id="
      +:+ Py.fmt (CLIENT_ID cfg) +:+ "&redirect_uri=" +:+ redirect_uri in
  redirect auth_redirect_path 302.

Definition logout : FlaskResponse :=
  let resp := redirect "/login" 302 in
  set_cookie "accessToken" EmptyString (Some 0%Z) resp.

(** The groups the gate tests membership in:
    [set(decoded.get("cognito:groups", []))]. *)
Definition groups_of (decoded : Claims) : gset string :=
  list_to_set (default [] (cognito_groups decoded)).

(** [authenticate(group)]: [None] lets the request through, a response
    stops it. *)
Definition authenticate (group : string) : result (option FlaskResponse) :=
  if running_local then Return None
  else
    match cookies request !! "accessToken" with
    | None => Return (Some auth_redirect)
    | Some access_token =>
        if negb (Py.str_truthy access_token) then Return (Some auth_redirect)
        else
          match jwt_decode access_token (USER_POOL_ID cfg) with
          | Raise ExpiredSignatureError => Return (Some auth_redirect)
          | Raise JWSSignatureError => Return (Some logout)
          | Raise e => Raise e
          | Return decoded =>
              if negb disable_auth
                 && negb (bool_decide (group = "guest"))
                 && negb (bool_decide (group ∈ groups_of decoded))
              then Return (Some auth_redirect)
              else Return None
          end
    end.

(** What a view function hands back to Flask: a response object, or a
    JSON document with a status code. *)
Inductive ViewResult :=
| ViewResponse (r : FlaskResponse)
| ViewJson (j : Json) (code : Z).

Definition abort {A} (code : Z) : M A := raise (HTTPException code).

(** The decorator [authenticated(group, redirect)] applied to the view
    [func]. *)
Definition authenticated (group : string) (redirect : bool)
    (func : M ViewResult) : M ViewResult :=
  (auth_response <- lift (authenticate group);;
   match auth_response with
   | Some r => if redirect then ret (ViewResponse r) else abort 401
   | None => func
   end)%py.

End Gate.

(** ** The request signer *)

Section Signer.

Variable ext : Externals.

(** The table from the method name to the function of [requests]. *)
Definition req_call (method : string) : option string :=
  Dict.get method
    [("POST", "post"); ("GET", "get"); ("PUT", "put");
     ("PATCH", "patch"); ("DELETE", "delete")].

(** The call itself: it is logged and the transport answers. *)
Definition dispatch (c : OutCall) : M Response :=
  fun w => (send ext c, (w ++ [c])%list).

(** [host.replace("https://", "").replace("http://", "")] *)
Definition endpoint_of (host : string) : string :=
  Py.replace "http://" EmptyString (Py.replace "https://" EmptyString host).

Definition sigv4_request (method : string) (host path : option string)
    (params headers : Dict.t) (body : Json) : M Response :=
  match host with
  | None => raise AttributeError
  | Some host =>
      let endpoint := endpoint_of host in
      match Py.split_max "." 3 endpoint with
      | [_api_id; _service; region; _domain] =>
          let request_parameters :=
            Py.join "&" (List.map (fun kv => kv.1 +:+ "=" +:+ kv.2) params) in
          let url := host +:+ Py.fmt path +:+ "?" +:+ request_parameters in
          let body_data :=
            if truthy body then Some (json_dumps ext body) else None in
          match get_credentials ext with
          | None => raise NoCredentialsError
          | Some credentials =>
              let signed :=
                sigv4_headers ext credentials "execute-api" region method url body_data in
              let with_type :=
                if truthy body
                then <["content-type" := "application/json"]> signed
                else signed in
              let all_headers :=
                fold_left (fun h kv => <[Py.lower kv.1 := kv.2]> h) headers with_type in
              match req_call method with
              | None => raise TypeError
              | Some verb =>
                  dispatch {| call_verb := verb;
                              call_url := prepare_url ext url;
                              call_data := body_data;
                              call_headers := all_headers;
                              call_timeout := Some 30%Z |}
              end
          end
      | _ => raise ValueError
      end
  end.

End Signer.

(** ** The proxy resource *)

Definition _get_params (_request : Request) : result Dict.t :=
  let params := Dict.of_multidict (args _request) in
  match Dict.pop "path" params with
  | Return (_, params') => Return params'
  | Raise e => Raise e
  end.

Inductive Verb := GET | POST | PUT | PATCH | DELETE.

Module PclusterApiHandler.
Section Methods.

Variable ext : Externals.
Variable cfg : Config.
Variable request : Request.

(** The value every method returns: [resp.json(), resp.status_code]. *)
Definition json_and_status (resp : Response) : M ViewResult :=
  (j <- lift (response_json resp);;
   ret (ViewJson j (status_code resp)))%py.

(** The check that opens [post], [put], [delete] and [patch]. *)
Definition admin_or_401 : M unit :=
  (auth_response <- lift (authenticate ext cfg request "admin");;
   match auth_response with
   | Some _ => abort 401
   | None => ret tt
   end)%py.

Definition get : M ViewResult :=
  (let path := args_get "path" request in
   params <- lift (_get_params request);;
   response <- sigv4_request ext "GET" (API_BASE_URL cfg) path params [] JNull;;
   json_and_status response)%py.

(** [post], [put] and [patch] differ in the method name only. *)
Definition with_body (method : string) : M ViewResult :=
  (admin_or_401;;;
   let path := args_get "path" request in
   params <- lift (_get_params request);;
   body <- lift (json request);;
   resp <- sigv4_request ext method (API_BASE_URL cfg) path params [] body;;
   json_and_status resp)%py.

Definition post : M ViewResult := with_body "POST".
Definition put : M ViewResult := with_body "PUT".
Definition patch : M ViewResult := with_body "PATCH".

(** The body [delete] decides to send. *)
Definition delete_body : result Json :=
  if headers_contains "Content-Type" request
     && bool_decide (headers_get "ContentType" request = Some "application/json")
  then json request
  else Return JNull.

Definition delete : M ViewResult :=
  (admin_or_401;;;
   body <- lift delete_body;;
   let path := args_get "path" request in
   params <- lift (_get_params request);;
   resp <- sigv4_request ext "DELETE" (API_BASE_URL cfg) path params [] body;;
   json_and_status resp)%py.

Definition method_of (verb : Verb) : M ViewResult :=
  match verb with
  | GET => get
  | POST => post
  | PUT => put
  | PATCH => patch
  | DELETE => delete
  end.

(** [method_decorators = [authenticated("user", redirect=False)]]: every
    method runs behind the user gate. *)
Definition dispatch_request (verb : Verb) : M ViewResult :=
  authenticated ext cfg request "user" false (method_of verb).

End Methods.
End PclusterApiHandler.

(** ** Concrete scenarios

    A deployment, a stand-in for the collaborators and a few requests, on
    which the statements below are exercised. *)

Module Demo.

Definition user_claims : Claims :=
  {| cognito_groups := Some ["user"]; username := Some "alice" |}.
Definition admin_claims : Claims :=
  {| cognito_groups := Some ["user"; "admin"]; username := Some "root" |}.

(** A verifier that knows three tokens.  Every other token, one with a
    forged signature included, does not decode: [jwt.decode] raises
    [JWTError] for it. *)
Definition verify (jwks_url token : string) : result Claims :=
  if bool_decide (token = "user-token") then Return user_claims
  else if bool_decide (token = "admin-token") then Return admin_claims
  else if bool_decide (token = "stale-token") then Raise ExpiredSignatureError
  else Raise JWTError.

(** A back end that knows no cluster and answers in JSON. *)
Definition not_found : Response :=
  {| status_code := 404;
     body := JsonBody (JObj [("message", JStr "cluster not found")]) |}.

(** A gateway in front of it that answers in HTML. *)
Definition bad_gateway : Response :=
  {| status_code := 502; body := RawBody "<html>Bad Gateway</html>" |}.

Definition ext_with (answer : Response) : Externals :=
  {| jwt_verify := verify;
     get_credentials := Some "AKIDEXAMPLE";
     sigv4_headers := fun _ _ _ _ _ _ => {["authorization" := "AWS4-HMAC-SHA256"]};
     prepare_url := fun url => url;
     json_dumps := fun _ => "{...}";
     send := fun _ => Return answer |}.

Definition ext : Externals := ext_with not_found.

Definition config (env : gmap string string) : Config :=
  {| environ := env;
     USER_POOL_ID := Some "us-east-1_Pool";
     AUTH_PATH := Some "https://auth.example.com";
     API_BASE_URL := Some "https://abc123.execute-api.us-east-1.amazonaws.com/prod";
     CLIENT_ID := Some "client";
     SITE_URL := Some "https://site.example.com" |}.

(** Deployed on Lambda, authorization on. *)
Definition deployed : Config :=
  config {["AWS_LAMBDA_FUNCTION_NAME" := "pcluster-manager"]}.
(** Deployed on Lambda, [ENABLE_AUTH=false]. *)
Definition deployed_noauth : Config :=
  config (<["ENABLE_AUTH" := "false"]> {["AWS_LAMBDA_FUNCTION_NAME" := "pcluster-manager"]}).
(** A developer's machine: no Lambda function name in the environment. *)
Definition local : Config := config ∅.

Definition request_with (token : option string) (query hdrs : list (string * string))
    (payload : result Json) : Request :=
  {| cookies := match token with Some t => {["accessToken" := t]} | None => ∅ end;
     args := query; headers := hdrs; json := payload |}.

Definition cluster_query : list (string * string) :=
  [("path", "/v3/clusters/foo"); ("region", "us-east-1")].

Definition anonymous : Request := request_with None cluster_query [] (Return JNull).
Definition as_user : Request := request_with (Some "user-token") cluster_query [] (Return JNull).
Definition as_admin : Request := request_with (Some "admin-token") cluster_query [] (Return JNull).
Definition stale : Request := request_with (Some "stale-token") cluster_query [] (Return JNull).
Definition forged : Request := request_with (Some "forged-token") cluster_query [] (Return JNull).

(** An admin's request with no [path] in the query string. *)
Definition pathless : Request :=
  request_with (Some "admin-token") [("region", "us-east-1")] [] (Return JNull).

(** An admin's DELETE that announces and carries a JSON body. *)
Definition delete_with_json : Request :=
  request_with (Some "admin-token") cluster_query
    [("Content-Type", "application/json")]
    (Return (JObj [("force", JBool true)])).

End Demo.

(** ** The other endpoints: what they call and what they read *)

(** The double quote, for the strings that hold one. *)
Definition dquote : string := String "034"%char EmptyString.

(** What a local endpoint returns: a JSON document, a document with a
    status code, or a text. *)
Inductive Answer :=
| Plain (j : Json)
| WithStatus (j : Json) (code : Z)
| Text (s : string).

Definition message (text : string) : Json := JObj [("message", JStr text)].

(** [d[k]] on a decoded JSON document: a missing member of an object is a
    [KeyError], and anything but an object cannot be indexed by a string. *)
Definition json_lookup (k : string) (members : list (string * Json)) : option Json :=
  snd <$> List.find (fun m => bool_decide (m.1 = k)) members.

Definition json_remove (k : string) (members : list (string * Json))
    : list (string * Json) :=
  List.filter (fun m => negb (bool_decide (m.1 = k))) members.

Definition json_item (k : string) (j : Json) : result Json :=
  match j with
  | JObj members =>
      match json_lookup k members with
      | Some v => Return v
      | None => Raise (KeyError k)
      end
  | _ => Raise TypeError
  end.

(** [d[k] = v] on a dictionary of strings: a key that is there keeps its
    place and takes the new value, a new key goes to the end. *)
Fixpoint dict_set (k v : string) (d : Dict.t) : Dict.t :=
  match d with
  | [] => [(k, v)]
  | (k', v') :: d' => if decide (k' = k) then (k, v) :: d' else (k', v') :: dict_set k v d'
  end.

(** [c.isspace()], a character being a code point below 256: the
    controls 9 to 13 and 28 to 31, the space, the next-line control 133 and
    the no-break space 160. *)
Definition is_space (c : ascii) : bool :=
  let n := nat_of_ascii c in
  ((9 <=? n)%nat && (n <=? 13)%nat) || ((28 <=? n)%nat && (n <=? 32)%nat)
  || (n =? 133)%nat || (n =? 160)%nat.

(** [s.isascii()]: every character is below 128. *)
Fixpoint isascii (s : string) : bool :=
  match s with
  | EmptyString => true
  | String c s' => (nat_of_ascii c <? 128)%nat && isascii s'
  end.

(** [s.strip()]: the white space is taken off both ends. *)

Fixpoint lstrip (s : string) : string :=
  match s with
  | EmptyString => EmptyString
  | String c s' => if is_space c then lstrip s' else s
  end.

Fixpoint rstrip (s : string) : string :=
  match s with
  | EmptyString => EmptyString
  | String c s' =>
      match rstrip s' with
      | EmptyString => if is_space c then EmptyString else String c EmptyString
      | rest => String c rest
      end
  end.

Definition strip (s : string) : string := rstrip (lstrip s).

(** The calls the local endpoints make to AWS services. *)
Inductive AwsCall :=
| Ec2StopInstances (region : option string) (instance_ids : list string)
| Ec2StartInstances (region : option string) (instance_ids : list string)
| CognitoAddUserToGroup (pool : option string) (username : Json) (group : string)
| CognitoRemoveUserFromGroup (pool : option string) (username : Json) (group : string)
(** the read at the end of [set_user_role]: [list_users] with the filter
    on the user name, and [_augment_user] on its first user *)
| CognitoReadUser (pool : option string) (username : Json)
(** [ssm_command(region, instance_id, user, run_command)], which runs the
    command on the instance and waits for it against the clock *)
| SsmCommand (region instance_id : option string) (user run_command : string).

(** What [ssm_command] returns: the standard output of the command, or
    the pair of a message and the status 500. *)
Inductive SsmReturn :=
| SsmOutput (output : string)
| SsmFailed (j : Json) (code : Z).

(** The collaborators of the local endpoints. *)
Record Services := {
  CLIENT_SECRET : option string;
  (** [requests.post(url, data=, auth=, headers=).json().get("access_token")]:
      the URL, the form, the client's id and secret *)
  token_endpoint :
    string -> list (string * option string) -> option string -> option string
    -> result (option string);
  (** the attributes of
      [boto3.client("cognito-idp").list_users(UserPoolId=, Filter=)["Users"][0]],
      as pairs of Name and Value *)
  cognito_user_attributes : option string -> string -> result (list (string * string));
  (** [requests.get(url).text] *)
  requests_get_text : Json -> result string;
  (** [boto3.client(service, config=Config(region_name=region))] *)
  boto3_client : string -> option string -> result unit;
  (** the answer of EC2 and of Cognito to a call *)
  aws_answer : AwsCall -> result Json;
  (** the outcome of [ssm_command] *)
  ssm_outcome : AwsCall -> result SsmReturn;
  (** [str(x)] of a decoded JSON value, as an f-string prints it *)
  str_of : Json -> string;
  json_loads : string -> result Json;
}.

(** Computations that may raise and that log their calls to AWS. *)
Definition Aws (A : Type) : Type := list AwsCall -> result A * list AwsCall.

Definition aws_ret {A} (a : A) : Aws A := fun log => (Return a, log).
Definition aws_raise {A} (e : exn) : Aws A := fun log => (Raise e, log).
Definition aws_lift {A} (r : result A) : Aws A := fun log => (r, log).
Definition aws_bind {A B} (m : Aws A) (k : A -> Aws B) : Aws B :=
  fun log =>
    match m log with
    | (Return a, log') => k a log'
    | (Raise e, log') => (Raise e, log')
    end.

Declare Scope aws_scope.
Delimit Scope aws_scope with aws.
Notation "x <- m ;; k" := (aws_bind m (fun x => k))
  (at level 100, m at next level, right associativity) : aws_scope.
Notation "m ;;; k" := (aws_bind m (fun _ => k))
  (at level 100, right associativity) : aws_scope.

Section Endpoints.

Variable ext : Externals.
Variable svc : Services.
Variable cfg : Config.
Variable request : Request.

Definition aws_call (c : AwsCall) : Aws Json :=
  fun log => (aws_answer svc c, (log ++ [c])%list).

(** [ssm_command] sends the command and polls for its end against the
    wall clock; the polling is not modelled: the call is logged and its
    outcome, the output or the pair of a message and 500, is the
    collaborator's. *)
Definition ssm_command (region instance_id : option string) (user run_command : string)
    : Aws SsmReturn :=
  fun log =>
    let c := SsmCommand region instance_id user run_command in
    (ssm_outcome svc c, (log ++ [c])%list).

(** The region the clients are configured with: [request.args.get("region")]
    when it is not empty. *)
Definition region_config : option string :=
  match args_get "region" request with
  | Some region => if Py.str_truthy region then Some region else None
  | None => None
  end.

Definition ec2_action : Aws Answer :=
  (aws_lift (boto3_client svc "ec2" region_config);;;
   match args_get "instance_ids" request with
   | None => aws_ret (WithStatus (message "You must specify instances.") 400)
   | Some ids =>
       let instance_ids := Py.split "," ids in
       if bool_decide (args_get "action" request = Some "stop_instances") then
         (aws_call (Ec2StopInstances region_config instance_ids);;;
          aws_ret (Plain (message "success")))
       else if bool_decide (args_get "action" request = Some "start_instances") then
         (aws_call (Ec2StartInstances region_config instance_ids);;;
          aws_ret (Plain (message "success")))
       else aws_ret (WithStatus (message "You must specify an action.") 400)
   end)%aws.

(** [request.args.get("user", "ec2-user")] *)
Definition ssm_user : string := default "ec2-user" (args_get "user" request).

Definition submit_job : Aws Answer :=
  (let user := ssm_user in
   let instance_id := args_get "instance_id" request in
   body <- aws_lift (json request);;
   match body with
   | JObj members =>
       let wrap := default (JBool false) (json_lookup "wrap" members) in
       let members := json_remove "wrap" members in
       match json_lookup "command" members with
       | None => aws_raise (KeyError "command")
       | Some command =>
           let members := json_remove "command" members in
           let job_cmd :=
             Py.join " "
               (List.map (fun kv => "--" +:+ kv.1 +:+ " " +:+ str_of svc kv.2) members) in
           let job_cmd :=
             job_cmd +:+ (if truthy wrap
                          then " --wrap " +:+ dquote +:+ str_of svc command +:+ dquote
                          else " " +:+ str_of svc command) in
           resp <- ssm_command (args_get "region" request) instance_id user
                     ("sbatch " +:+ job_cmd);;
           aws_ret match resp with
                   | SsmFailed j code => WithStatus j code
                   | SsmOutput _ => Plain (JObj [("success", JStr "true")])
                   end
       end
   | JArr _ => aws_raise TypeError
   | _ => aws_raise AttributeError
   end)%aws.

(** [{k: v for k, v in kvs}]: every element must unpack into two. *)
Fixpoint dict_of_pairs (kvs : list (list string)) (d : Dict.t) : result Dict.t :=
  match kvs with
  | [] => Return d
  | [k; v] :: kvs' => dict_of_pairs kvs' (dict_set k v d)
  | _ :: _ => Raise ValueError
  end.

Definition scontrol_job : Aws Answer :=
  (let user := ssm_user in
   let instance_id := args_get "instance_id" request in
   match args_get "job_id" request with
   | None => aws_ret (WithStatus (message "You must specify a job id.") 400)
   | Some job_id =>
       if negb (Py.str_truthy job_id)
       then aws_ret (WithStatus (message "You must specify a job id.") 400)
       else
         resp <- ssm_command (args_get "region" request) instance_id user
                   ("scontrol show job " +:+ job_id +:+ " -o");;
         match resp with
         | SsmFailed _ _ => aws_raise AttributeError
         | SsmOutput output =>
             let job_data := Py.split " " (strip output) in
             let kvs := List.map (Py.split_max "=" 1) job_data in
             job_info <- aws_lift (dict_of_pairs kvs []);;
             aws_ret (Plain (JObj (List.map (fun kv => (kv.1, JStr kv.2)) job_info)))
         end
   end)%aws.

Definition queue_status : Aws Answer :=
  (let user := ssm_user in
   let instance_id := args_get "instance_id" request in
   jobs <- ssm_command (args_get "region" request) instance_id user
             "squeue --json | jq .jobs\|\map\({name,nodes,partition,job_state,job_id,time\}\)";;
   match jobs with
   | SsmFailed _ _ => aws_raise TypeError
   | SsmOutput output =>
       if negb (Py.str_truthy output) then aws_ret (Plain (JObj [("jobs", JArr [])]))
       else
         parsed <- aws_lift (json_loads svc output);;
         aws_ret (Plain (JObj [("jobs", parsed)]))
   end)%aws.

Definition cancel_job : Aws Answer :=
  (let user := ssm_user in
   let instance_id := args_get "instance_id" request in
   let job_id := args_get "job_id" request in
   ssm_command (args_get "region" request) instance_id user
     ("scancel " +:+ Py.fmt job_id);;;
   aws_ret (Plain (JObj [("status", JStr "success")])))%aws.

Definition set_user_role : Aws Json :=
  (aws_lift (boto3_client svc "cognito-idp" None);;;
   body <- aws_lift (json request);;
   username <- aws_lift (json_item "username" body);;
   role <- aws_lift (json_item "role" body);;
   let pool := USER_POOL_ID cfg in
   match role with
   | JStr "guest" =>
       aws_call (CognitoRemoveUserFromGroup pool username "user");;;
       aws_call (CognitoRemoveUserFromGroup pool username "admin");;;
       aws_call (CognitoReadUser pool username)
   | JStr "user" =>
       aws_call (CognitoAddUserToGroup pool username "user");;;
       aws_call (CognitoRemoveUserFromGroup pool username "admin");;;
       aws_call (CognitoReadUser pool username)
   | JStr "admin" =>
       aws_call (CognitoAddUserToGroup pool username "user");;;
       aws_call (CognitoAddUserToGroup pool username "admin");;;
       aws_call (CognitoReadUser pool username)
   | _ => aws_call (CognitoReadUser pool username)
   end)%aws.

(** What [get_cluster_config_text] returns: the configuration, or the
    back end's document and status. *)
Definition get_cluster_config_text (cluster_name region : option string) : M Answer :=
  (let url := "/v3/clusters/" +:+ Py.fmt cluster_name in
   info_resp <-
     match region with
     | Some r =>
         if Py.str_truthy r
         then sigv4_request ext "GET" (API_BASE_URL cfg) (Some url) [("region", r)] [] JNull
         else sigv4_request ext "GET" (API_BASE_URL cfg) (Some url) [] [] JNull
     | None => sigv4_request ext "GET" (API_BASE_URL cfg) (Some url) [] [] JNull
     end;;
   if negb (status_code info_resp =? 200)%Z then
     (lift (response_json info_resp);;;
      j <- lift (response_json info_resp);;
      ret (WithStatus j (status_code info_resp)))
   else
     cluster_info <- lift (response_json info_resp);;
     cluster_configuration <- lift (json_item "clusterConfiguration" cluster_info);;
     location <- lift (json_item "url" cluster_configuration);;
     text <- lift (requests_get_text svc location);;
     ret (Text text))%py.

Definition get_cluster_config : M Answer :=
  get_cluster_config_text (args_get "cluster_name" request) (args_get "region" request).

(** The identity the interface shows. *)
Record Identity := {
  identity_groups : option (list string);
  identity_username : option string;
  identity_attributes : option (gmap string string);
}.

Inductive IdentityAnswer :=
| IdentityOf (i : Identity)
| IdentityRefused (j : Json) (code : Z).

(** [{ua["Name"]: ua["Value"] for ua in attributes}] *)
Definition attributes_dict (attributes : list (string * string)) : gmap string string :=
  fold_left (fun d ua => <[ua.1 := ua.2]> d) attributes ∅.

(** The [try] block of [get_identity]. *)
Definition decode_identity (access_token : string) : result Identity :=
  match jwt_decode ext access_token (USER_POOL_ID cfg) with
  | Raise e => Raise e
  | Return decoded =>
      match username decoded with
      | Some name =>
          if Py.str_truthy name then
            let filter_ := "username = " +:+ dquote +:+ name +:+ dquote in
            match cognito_user_attributes svc (USER_POOL_ID cfg) filter_ with
            | Raise e => Raise e
            | Return attributes =>
                Return {| identity_groups := cognito_groups decoded;
                          identity_username := username decoded;
                          identity_attributes := Some (attributes_dict attributes) |}
            end
          else Return {| identity_groups := cognito_groups decoded;
                         identity_username := username decoded;
                         identity_attributes := None |}
      | None => Return {| identity_groups := cognito_groups decoded;
                          identity_username := username decoded;
                          identity_attributes := None |}
      end
  end.

Definition get_identity : result IdentityAnswer :=
  if running_local cfg then
    Return (IdentityOf {| identity_groups := Some ["user"; "admin"];
                          identity_username := Some "username";
                          identity_attributes := Some {["email" := "user@domain.com"]} |})
  else
    match cookies request !! "accessToken" with
    | None => Return (IdentityRefused (message "No access token.") 401)
    | Some access_token =>
        if negb (Py.str_truthy access_token)
        then Return (IdentityRefused (message "No access token.") 401)
        else
          match decode_identity access_token with
          | Raise ExpiredSignatureError =>
              Return (IdentityRefused (message "Signature expired.") 401)
          | Raise e => Raise e
          | Return decoded =>
              if disable_auth cfg
              then Return (IdentityOf
                             {| identity_groups := Some ["user"; "admin"];
                                identity_username := identity_username decoded;
                                identity_attributes := identity_attributes decoded |})
              else Return (IdentityOf decoded)
          end
    end.

Definition login : result FlaskResponse :=
  let redirect_uri := Py.fmt (SITE_URL cfg) +:+ "/login" in
  let auth_redirect_path :=
    Py.fmt (AUTH_PATH cfg) +:+ "/login?response_type=code&client_id="
      +:+ Py.fmt (CLIENT_ID cfg) +:+ "&redirect_uri=" +:+ redirect_uri in
  match args_get "code" request with
  | None => Return (redirect auth_redirect_path 302)
  | Some code =>
      if negb (Py.str_truthy code) then Return (redirect auth_redirect_path 302)
      else
        let url := Py.fmt (AUTH_PATH cfg) +:+ "/oauth2/token" in
        match token_endpoint svc url
                [("grant_type", Some "authorization_code"); ("code", Some code);
                 ("client_id", CLIENT_ID cfg); ("redirect_uri", Some redirect_uri)]
                (CLIENT_ID cfg) (CLIENT_SECRET svc) with
        | Raise e => Raise e
        | Return None => Return (redirect auth_redirect_path 302)
        | Return (Some access_token) =>
            if negb (Py.str_truthy access_token)
            then Return (redirect auth_redirect_path 302)
            else Return (set_cookie "accessToken" access_token None
                           (redirect "/index.html" 302))
        end
  end.

End Endpoints.

(** How the user directory takes the two group calls: a model of the
    collaborator, in which a user's groups are a set that the one call adds
    to and the other takes from, and every other call leaves it alone. *)
Definition directory_step (groups : gmap string (gset string)) (c : AwsCall)
    : gmap string (gset string) :=
  match c with
  | CognitoAddUserToGroup _ (JStr user) group =>
      <[user := {[group]} ∪ default ∅ (groups !! user)]> groups
  | CognitoRemoveUserFromGroup _ (JStr user) group =>
      <[user := default ∅ (groups !! user) ∖ {[group]}]> groups
  | _ => groups
  end.

Definition directory_after (log : list AwsCall) (groups : gmap string (gset string))
    : gmap string (gset string) :=
  fold_left directory_step log groups.

(** A second scene: the services all answer, and the job scheduler
    prints two fields. *)
Module Scene.

Definition svc_with (outcome : AwsCall -> result SsmReturn) : Services :=
  {| CLIENT_SECRET := Some "secret";
     token_endpoint := fun _ form _ _ =>
       if bool_decide (Dict.get "code" (List.map (fun kv => (kv.1, Py.fmt kv.2)) form)
                       = Some "good-code")
       then Return (Some "user-token") else Return None;
     cognito_user_attributes := fun _ _ => Return [("email", "alice@example.com")];
     requests_get_text := fun _ => Return "Region: us-east-1";
     boto3_client := fun _ _ => Return tt;
     aws_answer := fun _ => Return (JObj []);
     ssm_outcome := outcome;
     str_of := fun j => match j with JStr s => s | _ => "?" end;
     json_loads := fun _ => Raise JSONDecodeError |}.

Definition svc : Services :=
  svc_with (fun _ => Return (SsmOutput "JobId=7 JobName=sim")).

(** The command never completes. *)
Definition timed_out : Services :=
  svc_with (fun _ =>
    Return (SsmFailed (message "Timed out waiting for command to complete.") 500)).

(** The command prints nothing. *)
Definition silent : Services := svc_with (fun _ => Return (SsmOutput EmptyString)).

Definition with_query (query : list (string * string)) (payload : result Json) : Request :=
  Demo.request_with (Some "admin-token") query [] payload.

End Scene.

(** ** The gate: what [authenticate] answers *)

Section GateFacts.

Variable ext : Externals.
Variable cfg : Config.
Variable request : Request.

Lemma authenticate_local group :
  running_local cfg = true ->
  authenticate ext cfg request group = Return None.
Proof. intros Hloc. unfold authenticate. by rewrite Hloc. Qed.

Lemma authenticate_no_cookie group :
  running_local cfg = false ->
  cookies request !! "accessToken" = None ->
  authenticate ext cfg request group = Return (Some (auth_redirect cfg)).
Proof. intros Hloc Hc. unfold authenticate. by rewrite Hloc, Hc. Qed.

Lemma authenticate_empty_cookie group :
  running_local cfg = false ->
  cookies request !! "accessToken" = Some EmptyString ->
  authenticate ext cfg request group = Return (Some (auth_redirect cfg)).
Proof. intros Hloc Hc. unfold authenticate. by rewrite Hloc, Hc. Qed.

(** With a cookie to read, the answer is decided by the verifier's. *)
Lemma authenticate_with_token group token :
  running_local cfg = false ->
  cookies request !! "accessToken" = Some token ->
  token <> EmptyString ->
  authenticate ext cfg request group =
    match jwt_decode ext token (USER_POOL_ID cfg) with
    | Raise ExpiredSignatureError => Return (Some (auth_redirect cfg))
    | Raise JWSSignatureError => Return (Some logout)
    | Raise e => Raise e
    | Return decoded =>
        if negb (disable_auth cfg)
           && negb (bool_decide (group = "guest"))
           && negb (bool_decide (group ∈ groups_of decoded))
        then Return (Some (auth_redirect cfg))
        else Return None
    end.
Proof.
  intros Hloc Hc Hne. unfold authenticate. rewrite Hloc, Hc.
  destruct token; [done | reflexivity].
Qed.

Lemma elem_of_groups_of group decoded :
  group ∈ groups_of decoded <-> group ∈ default [] (cognito_groups decoded).
Proof. unfold groups_of. apply elem_of_list_to_set. Qed.

(** The two answers that stop a request are different responses: only
    the logout sets a cookie, and it sends the browser elsewhere. *)
Lemma logout_not_auth_redirect : logout <> auth_redirect cfg.
Proof. unfold logout, auth_redirect, redirect, set_cookie. simpl. congruence. Qed.

Lemma authenticated_stopped group (redirect : bool) func r w :
  authenticate ext cfg request group = Return (Some r) ->
  authenticated ext cfg request group redirect func w =
    (if redirect then Return (ViewResponse r) else Raise (HTTPException 401), w).
Proof.
  intros Ha. unfold authenticated, bind, lift. rewrite Ha. by destruct redirect.
Qed.

Lemma authenticated_passed group (redirect : bool) func w :
  authenticate ext cfg request group = Return None ->
  authenticated ext cfg request group redirect func w = func w.
Proof. intros Ha. unfold authenticated, bind, lift. by rewrite Ha. Qed.

End GateFacts.

(** C1.  Outside local mode and with authorization enabled, a request
    whose token verifies to the claims [decoded] passes the gate for the
    required group [group] (any group name, so in particular guest, user
    and admin) exactly when [group] is guest or one of the token's groups.
    Otherwise the gate answers the redirect to the login page, which the
    decorator returns as it is at page entry points and replaces with
    [abort(401)] at API call sites. *)
Theorem C1_gate_allows_iff_member
    (ext : Externals) (cfg : Config) (request : Request)
    (group token : string) (decoded : Claims) :
  running_local cfg = false ->
  disable_auth cfg = false ->
  cookies request !! "accessToken" = Some token ->
  token <> EmptyString ->
  jwt_decode ext token (USER_POOL_ID cfg) = Return decoded ->
  let member := group = "guest" \/ group ∈ default [] (cognito_groups decoded) in
  (authenticate ext cfg request group = Return None <-> member)
  /\ (~ member ->
      authenticate ext cfg request group = Return (Some (auth_redirect cfg))
      /\ forall func w,
          authenticated ext cfg request group true func w
            = (Return (ViewResponse (auth_redirect cfg)), w)
          /\ authenticated ext cfg request group false func w
            = (Raise (HTTPException 401), w)).
Proof.
  intros Hloc Hauth Hcookie Hne Hdec member.
  pose proof (authenticate_with_token ext cfg request group token Hloc Hcookie Hne) as Heq.
  rewrite Hdec, Hauth in Heq. simpl in Heq.
  assert (Hdecide : member \/ ~ member).
  { subst member. destruct (decide (group = "guest")) as [->|Hg]; [by left; left |].
    destruct (decide (group ∈ default [] (cognito_groups decoded))); [by left; right |].
    right. by intros [?|?]. }
  assert (Hno : ~ member ->
            authenticate ext cfg request group = Return (Some (auth_redirect cfg))).
  { intros Hnm. rewrite Heq.
    rewrite bool_decide_eq_false_2 by (intros ?; apply Hnm; by left).
    rewrite bool_decide_eq_false_2
      by (intros ?; apply Hnm; right; by apply elem_of_groups_of).
    reflexivity. }
  split; [split |].
  - intros Hallowed. destruct Hdecide as [Hm|Hnm]; [exact Hm |].
    rewrite (Hno Hnm) in Hallowed. discriminate.
  - intros [Hg|Hin]; rewrite Heq.
    + rewrite (bool_decide_eq_true_2 _ Hg). reflexivity.
    + apply elem_of_groups_of in Hin. rewrite (bool_decide_eq_true_2 _ Hin).
      by destruct (bool_decide (group = "guest")).
  - intros Hnm. split; [by apply Hno |]. intros func w.
    split; by rewrite (authenticated_stopped _ _ _ _ _ _ _ _ (Hno Hnm)).
Qed.

(** A user's token opens the user gate and not the admin gate. *)
Lemma C1_gate_witness :
  (authenticate Demo.ext Demo.deployed Demo.as_user "user" = Return None
   <-> "user" = "guest" \/ "user" ∈ ["user"])
  /\ authenticate Demo.ext Demo.deployed Demo.as_user "admin"
     = Return (Some (auth_redirect Demo.deployed)).
Proof.
  split.
  - apply (C1_gate_allows_iff_member Demo.ext Demo.deployed Demo.as_user
             "user" "user-token" Demo.user_claims); by vm_compute.
  - apply (C1_gate_allows_iff_member Demo.ext Demo.deployed Demo.as_user
             "admin" "user-token" Demo.user_claims); try by vm_compute.
    intros [Hg|Hin]; [discriminate |].
    apply list_elem_of_singleton in Hin. discriminate.
Defined.

(** An admin's token opens both gates of the proxy's writing methods. *)
Example admin_passes_both_gates :
  authenticate Demo.ext Demo.deployed Demo.as_admin "user" = Return None
  /\ authenticate Demo.ext Demo.deployed Demo.as_admin "admin" = Return None.
Proof. split; by vm_compute. Qed.

(** C2, as stated, fails: with [ENABLE_AUTH=false] on a deployed instance
    the gate still stops a request that brings no token and one whose token
    has expired, and it raises on one whose token is forged. *)
Lemma C2_disabled_still_stops :
  disable_auth Demo.deployed_noauth = true
  /\ authenticate Demo.ext Demo.deployed_noauth Demo.anonymous "user"
     = Return (Some (auth_redirect Demo.deployed_noauth))
  /\ authenticate Demo.ext Demo.deployed_noauth Demo.stale "user"
     = Return (Some (auth_redirect Demo.deployed_noauth))
  /\ authenticate Demo.ext Demo.deployed_noauth Demo.forged "user"
     = Raise JWTError
  /\ authenticate Demo.ext Demo.deployed_noauth Demo.anonymous "user" <> Return None.
Proof. repeat split; by vm_compute. Qed.

(** C2, amended.  With authorization disabled the gate passes every
    request whose token verifies, whatever groups the token carries and
    whatever group is required (and, in local mode, every request).  Outside
    local mode the flag changes nothing for a request without a token or
    with an expired one: it is answered with the redirect to the login
    page. *)
Theorem C2_disabled_skips_group_check
    (ext : Externals) (cfg : Config) (request : Request) (group : string) :
  disable_auth cfg = true ->
  (running_local cfg = true -> authenticate ext cfg request group = Return None)
  /\ (running_local cfg = false ->
      (cookies request !! "accessToken" = None
       \/ cookies request !! "accessToken" = Some EmptyString ->
       authenticate ext cfg request group = Return (Some (auth_redirect cfg)))
      /\ forall token,
          cookies request !! "accessToken" = Some token ->
          token <> EmptyString ->
          (forall decoded,
              jwt_decode ext token (USER_POOL_ID cfg) = Return decoded ->
              authenticate ext cfg request group = Return None)
          /\ (jwt_decode ext token (USER_POOL_ID cfg) = Raise ExpiredSignatureError ->
              authenticate ext cfg request group = Return (Some (auth_redirect cfg)))).
Proof.
  intros Hoff. split; [apply authenticate_local |].
  intros Hloc. split.
  - intros [Hc|Hc];
      [by apply authenticate_no_cookie | by apply authenticate_empty_cookie].
  - intros token Hcookie Hne.
    rewrite (authenticate_with_token ext cfg request group token Hloc Hcookie Hne).
    rewrite Hoff.
    split; [intros decoded Hdec | intros Hdec]; by rewrite Hdec.
Qed.

(** With the flag set, a user's token opens the admin gate. *)
Lemma C2_disabled_witness :
  authenticate Demo.ext Demo.deployed_noauth Demo.as_user "admin" = Return None.
Proof.
  assert (Hoff : disable_auth Demo.deployed_noauth = true) by (by vm_compute).
  destruct (C2_disabled_skips_group_check Demo.ext Demo.deployed_noauth
              Demo.as_user "admin" Hoff) as [_ Hdeployed].
  destruct (Hdeployed ltac:(by vm_compute)) as [_ Htoken].
  destruct (Htoken "user-token" ltac:(by vm_compute) ltac:(discriminate))
    as [Hverified _].
  exact (Hverified Demo.user_claims ltac:(by vm_compute)).
Defined.

(** C3, as stated, fails: in local mode the gate passes a request before
    it reads the token, so an expired token is let through. *)
Lemma C3_local_passes_expired :
  running_local Demo.local = true
  /\ cookies Demo.stale !! "accessToken" = Some "stale-token"
  /\ jwt_decode Demo.ext "stale-token" (USER_POOL_ID Demo.local)
     = Raise ExpiredSignatureError
  /\ authenticate Demo.ext Demo.local Demo.stale "admin" = Return None.
Proof. repeat split; by vm_compute. Qed.

(** C3, amended.  Outside local mode, a token the verifier reports as
    expired is answered with the redirect to the login page and is never let
    through: for every required group, whatever the token carries, and with
    authorization enabled or disabled. *)
Theorem C3_expired_redirects
    (ext : Externals) (cfg : Config) (request : Request) (group token : string) :
  running_local cfg = false ->
  cookies request !! "accessToken" = Some token ->
  token <> EmptyString ->
  jwt_decode ext token (USER_POOL_ID cfg) = Raise ExpiredSignatureError ->
  authenticate ext cfg request group = Return (Some (auth_redirect cfg))
  /\ authenticate ext cfg request group <> Return None.
Proof.
  intros Hloc Hcookie Hne Hdec.
  rewrite (authenticate_with_token ext cfg request group token Hloc Hcookie Hne), Hdec.
  split; [reflexivity | discriminate].
Qed.

Lemma C3_expired_witness :
  authenticate Demo.ext Demo.deployed Demo.stale "guest"
    = Return (Some (auth_redirect Demo.deployed))
  /\ authenticate Demo.ext Demo.deployed Demo.stale "guest" <> Return None.
Proof.
  apply (C3_expired_redirects Demo.ext Demo.deployed Demo.stale "guest" "stale-token");
    by vm_compute.
Defined.

(** The clause of line 114.  Were the verifier to raise
    [JWSSignatureError], the gate would answer the logout, a response other
    than the redirect to the login page.  [jwt.decode] does not raise this
    class: a signature that does not verify comes out of it as
    [JWTError]. *)
Lemma signature_error_clause
    (ext : Externals) (cfg : Config) (request : Request) (group token : string) :
  running_local cfg = false ->
  cookies request !! "accessToken" = Some token ->
  token <> EmptyString ->
  jwt_decode ext token (USER_POOL_ID cfg) = Raise JWSSignatureError ->
  authenticate ext cfg request group = Return (Some logout)
  /\ logout <> auth_redirect cfg.
Proof.
  intros Hloc Hcookie Hne Hdec.
  rewrite (authenticate_with_token ext cfg request group token Hloc Hcookie Hne), Hdec.
  split; [reflexivity | apply logout_not_auth_redirect].
Qed.

(** C4: the failing input.  On a deployed instance a token whose
    signature does not verify makes [jwt.decode] raise [JWTError].  No
    clause of the gate catches it, so [authenticate] raises it for every
    required group: the request is not let through, but it is not answered
    with the logout either, nor with any other response. *)
Theorem C4_forged_token_raises
    (ext : Externals) (cfg : Config) (request : Request) (group token : string) :
  running_local cfg = false ->
  cookies request !! "accessToken" = Some token ->
  token <> EmptyString ->
  jwt_decode ext token (USER_POOL_ID cfg) = Raise JWTError ->
  authenticate ext cfg request group = Raise JWTError
  /\ authenticate ext cfg request group <> Return (Some logout)
  /\ authenticate ext cfg request group <> Return None.
Proof.
  intros Hloc Hcookie Hne Hdec.
  rewrite (authenticate_with_token ext cfg request group token Hloc Hcookie Hne), Hdec.
  by repeat split.
Qed.

Lemma C4_forged_token_witness :
  authenticate Demo.ext Demo.deployed Demo.forged "user" = Raise JWTError
  /\ authenticate Demo.ext Demo.deployed Demo.forged "user" <> Return (Some logout)
  /\ authenticate Demo.ext Demo.deployed Demo.forged "user" <> Return None.
Proof.
  apply (C4_forged_token_raises Demo.ext Demo.deployed Demo.forged "user" "forged-token");
    by vm_compute.
Defined.

(** ** The signer: the labels of the host *)

Section SplitFacts.

Variable sep : ascii.

Lemma length_split_max n s :
  length (Py.split_max sep n s) = S (n `min` Py.count sep s).
Proof.
  revert n. induction s as [|c s IH]; intros n; simpl.
  - by rewrite Nat.min_0_r.
  - destruct (Ascii.eqb c sep).
    + destruct n as [|m]; simpl; [done |]. by rewrite IH.
    + specialize (IH n).
      destruct (Py.split_max sep n s) as [|field fields]; simpl in *; [lia | done].
Qed.

Lemma count_le_length s : Py.count sep s <= String.length s.
Proof.
  induction s as [|c s IH]; simpl; [done |].
  destruct (Ascii.eqb c sep); lia.
Qed.

(** A string has one field more than it has separators. *)
Lemma length_split s : length (Py.split sep s) = S (Py.count sep s).
Proof.
  unfold Py.split. rewrite length_split_max.
  pose proof (count_le_length s). lia.
Qed.

End SplitFacts.

(** Every run of the signer either raises with the log untouched, or
    makes exactly one call, whose answer is its result. *)
Lemma sigv4_request_cases ext method host path params headers body w :
  (exists e, sigv4_request ext method host path params headers body w = (Raise e, w))
  \/ (exists c,
        sigv4_request ext method host path params headers body w
          = (send ext c, (w ++ [c])%list)
        /\ call_timeout c = Some 30%Z
        /\ call_data c = if truthy body then Some (json_dumps ext body) else None).
Proof.
  unfold sigv4_request, raise, dispatch.
  destruct host as [host|]; [| by left; eexists].
  destruct (Py.split_max "." 3 (endpoint_of host)) as [|a [|b [|region [|d [|? ?]]]]];
    try (by left; eexists).
  destruct (get_credentials ext); [| by left; eexists].
  destruct (req_call method); [| by left; eexists].
  right. by eexists.
Qed.

(** C5.  A host that, once [https://] and [http://] are taken out, has
    fewer than four labels between dots makes the signer fail at the
    unpacking of the labels, a [ValueError] (the specification's
    MalformedHost), before anything is signed or sent: the log of outbound
    calls is as it was. *)
Theorem C5_short_host_fails
    (ext : Externals) (method host : string) (path : option string)
    (params headers : Dict.t) (body : Json) (w : World) :
  length (Py.split "." (endpoint_of host)) < 4 ->
  sigv4_request ext method (Some host) path params headers body w = (Raise ValueError, w).
Proof.
  intros Hshort. rewrite length_split in Hshort.
  pose proof (length_split_max "." 3 (endpoint_of host)) as Hlen.
  unfold sigv4_request.
  destruct (Py.split_max "." 3 (endpoint_of host)) as [|a [|b [|region [|d [|? ?]]]]];
    cbn [length] in Hlen; try reflexivity; lia.
Qed.

(** A host of three labels. *)
Lemma C5_short_host_witness :
  sigv4_request Demo.ext "GET" (Some "https://api.example.com") (Some "/v3/clusters")
    [] [] JNull [] = (Raise ValueError, []).
Proof. apply C5_short_host_fails. vm_compute. lia. Defined.

(** C9, as stated, fails: the call the signer makes carries a timeout. *)
Lemma C9_call_carries_timeout :
  exists c,
    sigv4_request Demo.ext "GET" (API_BASE_URL Demo.deployed) (Some "/v3/clusters/foo")
      [("region", "us-east-1")] [] JNull [] = (Return Demo.not_found, [c])
    /\ call_timeout c = Some 30%Z
    /\ call_timeout c <> None.
Proof. eexists. repeat split; by vm_compute. Qed.

(** C9, amended.  The signer makes at most one outbound call, and the
    call it makes is issued with a timeout of 30 seconds. *)
Theorem C9_one_call_with_timeout
    (ext : Externals) (method : string) (host path : option string)
    (params headers : Dict.t) (body : Json) (w : World) :
  let out := sigv4_request ext method host path params headers body w in
  out.2 = w
  \/ exists c, out.2 = (w ++ [c])%list /\ out.1 = send ext c /\ call_timeout c = Some 30%Z.
Proof.
  intros out. subst out.
  destruct (sigv4_request_cases ext method host path params headers body w)
    as [[e ->]|[c (-> & Htimeout & _)]]; [by left |].
  right. by exists c.
Qed.

(** ** The proxy: the forwarded parameters *)

Section DictFacts.

Implicit Types (d : Dict.t) (k : string).

(** Reading a dictionary is reading the finite map of its items. *)
Lemma get_lookup k d : Dict.get k d = (list_to_map d : gmap string string) !! k.
Proof.
  induction d as [|[k' v] d IH]; simpl; [done |].
  destruct (decide (k' = k)) as [->|Hne].
  - by rewrite lookup_insert_eq.
  - by rewrite lookup_insert_ne.
Qed.

Lemma list_to_map_remove k d :
  (list_to_map (Dict.remove k d) : gmap string string) = delete k (list_to_map d).
Proof.
  unfold Dict.remove. induction d as [|[k' v] d IH]; simpl.
  - by rewrite delete_empty.
  - destruct (decide (k' = k)) as [->|Hne].
    + rewrite bool_decide_eq_true_2 by done. simpl.
      by rewrite IH, delete_insert_eq.
    + rewrite bool_decide_eq_false_2 by done. simpl.
      by rewrite IH, delete_insert_ne.
Qed.

(** Copying the query-string mapping into a dictionary keeps what the
    mapping gives for every key. *)
Lemma list_to_map_of_multidict (m : list (string * string)) :
  (list_to_map (Dict.of_multidict m) : gmap string string) = list_to_map m.
Proof.
  induction m as [|[k v] m IH]; simpl; [done |].
  by rewrite list_to_map_remove, insert_delete_eq, IH.
Qed.

Lemma get_of_multidict k (m : list (string * string)) :
  Dict.get k (Dict.of_multidict m) = Dict.get k m.
Proof. by rewrite !get_lookup, list_to_map_of_multidict. Qed.


End DictFacts.


Lemma _get_params_absent request :
  args_get "path" request = None ->
  _get_params request = Raise (KeyError "path").
Proof.
  unfold args_get, _get_params, Dict.pop. intros Hpath.
  by rewrite get_of_multidict, Hpath.
Qed.

(** The query string of the specification's example. *)
Example _get_params_cluster_query :
  _get_params Demo.as_user = Return [("region", "us-east-1")].
Proof. reflexivity. Qed.



(** ** The proxy: one call, relayed *)

Section ProxyFacts.

Variable ext : Externals.
Variable cfg : Config.
Variable request : Request.

Import PclusterApiHandler.

Lemma admin_or_401_cases w :
  (authenticate ext cfg request "admin" = Return None
   /\ admin_or_401 ext cfg request w = (Return tt, w))
  \/ (authenticate ext cfg request "admin" <> Return None
      /\ exists e, admin_or_401 ext cfg request w = (Raise e, w)).
Proof.
  unfold admin_or_401, bind, lift, abort, raise, ret.
  destruct (authenticate ext cfg request "admin") as [[r|]|e];
    [right | left | right]; split; try done; by eexists.
Qed.

(** The last two steps of every method. *)
Lemma forwarding_cases method host path params body w :
  (exists e,
      (resp <- sigv4_request ext method host path params [] body;;
       json_and_status resp)%py w = (Raise e, w))
  \/ (exists c,
      (resp <- sigv4_request ext method host path params [] body;;
       json_and_status resp)%py w
      = (resp <- lift (send ext c);; json_and_status resp)%py (w ++ [c])%list
      /\ call_timeout c = Some 30%Z
      /\ call_data c = if truthy body then Some (json_dumps ext body) else None).
Proof.
  remember ((resp <- sigv4_request ext method host path params [] body;;
             json_and_status resp)%py w) as out eqn:Hout.
  unfold bind in Hout.
  destruct (sigv4_request_cases ext method host path params [] body w)
    as [[e He]|[c (Hc & Htimeout & Hdata)]]; rewrite ?He, ?Hc in Hout.
  - left. by exists e.
  - right. exists c. by repeat split.
Qed.

(** A method either raises before it calls out, or makes one call and
    relays its answer. *)
Lemma method_of_cases verb w :
  (exists e, method_of ext cfg request verb w = (Raise e, w))
  \/ (exists c,
      method_of ext cfg request verb w
      = (resp <- lift (send ext c);; json_and_status resp)%py (w ++ [c])%list
      /\ call_timeout c = Some 30%Z).
Proof.
  assert (Htail : forall method body params out,
    out = (resp <- sigv4_request ext method (API_BASE_URL cfg)
                     (args_get "path" request) params [] body;;
           json_and_status resp)%py w ->
    (exists e, out = (Raise e, w))
    \/ (exists c,
        out = (resp <- lift (send ext c);; json_and_status resp)%py (w ++ [c])%list
        /\ call_timeout c = Some 30%Z)).
  { intros method body params out ->.
    destruct (forwarding_cases method (API_BASE_URL cfg)
                (args_get "path" request) params body w)
      as [[e He]|[c (Hc & Htimeout & _)]]; [left; by exists e |].
    right. by exists c. }
  assert (Hbody : forall method out,
    out = with_body ext cfg request method w ->
    (exists e, out = (Raise e, w))
    \/ (exists c,
        out = (resp <- lift (send ext c);; json_and_status resp)%py (w ++ [c])%list
        /\ call_timeout c = Some 30%Z)).
  { intros method out Hout. unfold with_body in Hout. unfold bind at 1 in Hout.
    destruct (admin_or_401_cases w) as [[_ Ha]|[_ [e Ha]]]; rewrite Ha in Hout;
      [| left; by exists e].
    unfold bind at 1, lift at 1 in Hout.
    destruct (_get_params request) as [params|e]; [| left; by exists e].
    unfold bind at 1, lift at 1 in Hout.
    destruct (json request) as [body|e]; [| left; by exists e].
    by apply (Htail method body params). }
  remember (method_of ext cfg request verb w) as out eqn:Hout.
  destruct verb; simpl in Hout; try by eapply Hbody.
  - unfold get in Hout. unfold bind at 1, lift at 1 in Hout.
    destruct (_get_params request) as [params|e]; [| left; by exists e].
    by apply (Htail "GET" JNull params).
  - unfold delete in Hout. unfold bind at 1 in Hout.
    destruct (admin_or_401_cases w) as [[_ Ha]|[_ [e Ha]]]; rewrite Ha in Hout;
      [| left; by exists e].
    unfold bind at 1, lift at 1 in Hout.
    destruct (delete_body request) as [body|e]; [| left; by exists e].
    unfold bind at 1, lift at 1 in Hout.
    destruct (_get_params request) as [params|e]; [| left; by exists e].
    by apply (Htail "DELETE" body params).
Qed.

Lemma dispatch_request_cases verb w :
  (exists e, dispatch_request ext cfg request verb w = (Raise e, w))
  \/ (exists c,
      dispatch_request ext cfg request verb w
      = (resp <- lift (send ext c);; json_and_status resp)%py (w ++ [c])%list
      /\ call_timeout c = Some 30%Z).
Proof.
  remember (dispatch_request ext cfg request verb w) as out eqn:Hout.
  unfold dispatch_request, authenticated in Hout.
  unfold bind at 1, lift at 1 in Hout.
  destruct (authenticate ext cfg request "user") as [[r|]|e];
    [left; by eexists | | left; by eexists].
  subst out. apply method_of_cases.
Qed.

End ProxyFacts.

(** C6, as stated, fails: an answer whose body is not JSON is not
    relayed.  The back end's 502 with an HTML body makes [get] raise the
    decoding error after the call, so the caller sees neither the 502 nor
    the body. *)
Lemma C6_html_answer_not_relayed :
  exists c,
    PclusterApiHandler.dispatch_request (Demo.ext_with Demo.bad_gateway)
      Demo.deployed Demo.as_user GET [] = (Raise JSONDecodeError, [c])
    /\ send (Demo.ext_with Demo.bad_gateway) c = Return Demo.bad_gateway
    /\ status_code Demo.bad_gateway = 502%Z.
Proof. eexists. repeat split; by vm_compute. Qed.

(** C6, amended.  Whatever the verb, when the proxy has made its call
    [c] and the back end has answered it, an answer whose body is a JSON
    document is relayed as it is: the result is that document with the
    answer's status code, whatever the code.  An answer whose body is not
    JSON is not relayed: the decoding error is raised. *)
Theorem C6_json_answer_relayed
    (ext : Externals) (cfg : Config) (request : Request) (verb : Verb)
    (w : World) (c : OutCall) (resp : Response) (r : result ViewResult) :
  PclusterApiHandler.dispatch_request ext cfg request verb w = (r, (w ++ [c])%list) ->
  send ext c = Return resp ->
  match body resp with
  | JsonBody j => r = Return (ViewJson j (status_code resp))
  | RawBody _ => r = Raise JSONDecodeError
  end.
Proof.
  intros Hrun Hsend.
  destruct (dispatch_request_cases ext cfg request verb w)
    as [[e He]|[c' [Hc' _]]]; rewrite Hrun in *.
  - injection He as Hr Hw. apply (f_equal length) in Hw.
    rewrite length_app in Hw. simpl in Hw. lia.
  - unfold PclusterApiHandler.json_and_status, response_json, bind, lift, ret in Hc'.
    assert (c' = c) as ->.
    { destruct (send ext c') as [resp'|e']; [destruct (body resp') |];
        injection Hc' as Hr Hw; apply app_inv_head in Hw; by injection Hw. }
    rewrite Hsend in Hc'.
    destruct (body resp); by injection Hc' as ->.
Qed.

(** The specification's example: the back end's 404 and its message reach
    the caller. *)
Lemma C6_json_answer_witness :
  PclusterApiHandler.dispatch_request Demo.ext Demo.deployed Demo.as_user GET []
  = (Return (ViewJson (JObj [("message", JStr "cluster not found")]) 404), 
     [{| call_verb := "get";
         call_url := "https://abc123.execute-api.us-east-1.amazonaws.com/prod"
                       +:+ "/v3/clusters/foo?region=us-east-1";
         call_data := None;
         call_headers := {["authorization" := "AWS4-HMAC-SHA256"]};
         call_timeout := Some 30%Z |}]).
Proof.
  set (c := {| call_verb := "get";
               call_url := "https://abc123.execute-api.us-east-1.amazonaws.com/prod"
                             +:+ "/v3/clusters/foo?region=us-east-1";
               call_data := None;
               call_headers := {["authorization" := "AWS4-HMAC-SHA256"]};
               call_timeout := Some 30%Z |}).
  assert (Hrun : exists r,
    PclusterApiHandler.dispatch_request Demo.ext Demo.deployed Demo.as_user GET []
    = (r, ([] ++ [c])%list)) by (eexists; by vm_compute).
  destruct Hrun as [r Hrun]. rewrite Hrun. f_equal.
  exact (C6_json_answer_relayed Demo.ext Demo.deployed Demo.as_user GET [] c
           Demo.not_found r Hrun ltac:(reflexivity)).
Defined.

(** C8: the failing input.  An admin's DELETE that carries
    [Content-Type: application/json] and a JSON body is forwarded without
    the body: [delete] tests that the header [Content-Type] is there but
    reads the value of a header named [ContentType], which this request
    does not have. *)
Theorem C8_delete_drops_announced_body :
  headers_get "Content-Type" Demo.delete_with_json = Some "application/json"
  /\ json Demo.delete_with_json = Return (JObj [("force", JBool true)])
  /\ PclusterApiHandler.delete_body Demo.delete_with_json = Return JNull
  /\ exists c,
      PclusterApiHandler.dispatch_request Demo.ext Demo.deployed
        Demo.delete_with_json DELETE []
      = (Return (ViewJson (JObj [("message", JStr "cluster not found")]) 404), [c])
      /\ call_verb c = "delete"
      /\ call_data c = None.
Proof. repeat split. eexists. repeat split; by vm_compute. Qed.

(** The body [delete] sends is the caller's only when the request has a
    header named [ContentType] with the value [application/json] next to
    its [Content-Type] header; then reading the body decides, and its
    failure is the method's. *)
Lemma delete_body_cases (request : Request) :
  (headers_get "ContentType" request <> Some "application/json"
   \/ headers_get "Content-Type" request = None ->
   PclusterApiHandler.delete_body request = Return JNull)
  /\ (headers_get "ContentType" request = Some "application/json" ->
      is_Some (headers_get "Content-Type" request) ->
      PclusterApiHandler.delete_body request = json request).
Proof.
  unfold PclusterApiHandler.delete_body, headers_contains. split.
  - intros [Hvalue|Hnone].
    + rewrite (bool_decide_eq_false_2 _ Hvalue). by rewrite andb_false_r.
    + rewrite Hnone. rewrite bool_decide_eq_false_2; [done |]. by intros [? ?].
  - intros Hvalue Hsome.
    by rewrite (bool_decide_eq_true_2 _ Hvalue), (bool_decide_eq_true_2 _ Hsome).
Qed.

(** C10.  A request whose query string has no [path] makes the
    parameter extraction raise [KeyError("path")], the [pop] of an absent
    key.  Whatever the verb, no call to the back end is made for such a
    request, and once the method is reached (the gates of the verb let the
    request through and, for DELETE, reading the body did not raise) the
    uncaught [KeyError] is the outcome of the request. *)
Theorem C10_missing_path_raises
    (ext : Externals) (cfg : Config) (request : Request) (verb : Verb) (w : World) :
  args_get "path" request = None ->
  _get_params request = Raise (KeyError "path")
  /\ (PclusterApiHandler.dispatch_request ext cfg request verb w).2 = w
  /\ (authenticate ext cfg request "user" = Return None ->
      (verb <> GET -> authenticate ext cfg request "admin" = Return None) ->
      (verb = DELETE -> exists b, PclusterApiHandler.delete_body request = Return b) ->
      PclusterApiHandler.dispatch_request ext cfg request verb w
        = (Raise (KeyError "path"), w)).
Proof.
  intros Hpath. pose proof (_get_params_absent request Hpath) as Hparams.
  split; [exact Hparams |].
  unfold PclusterApiHandler.dispatch_request, authenticated,
    PclusterApiHandler.method_of, PclusterApiHandler.get, PclusterApiHandler.post,
    PclusterApiHandler.put, PclusterApiHandler.patch, PclusterApiHandler.with_body,
    PclusterApiHandler.delete, PclusterApiHandler.admin_or_401,
    bind, lift, abort, raise, ret.
  rewrite Hparams. split.
  - destruct (authenticate ext cfg request "user") as [[?|]|?]; [done | | done].
    destruct verb; try done;
      destruct (authenticate ext cfg request "admin") as [[?|]|?]; try done.
    by destruct (PclusterApiHandler.delete_body request).
  - intros -> Hadmin Hbody. destruct verb; try done;
      rewrite Hadmin by done; try done.
    destruct (Hbody eq_refl) as [b ->]. done.
Qed.

(** An admin's DELETE without [path]. *)
Lemma C10_missing_path_witness :
  PclusterApiHandler.dispatch_request Demo.ext Demo.deployed Demo.pathless DELETE []
  = (Raise (KeyError "path"), []).
Proof.
  apply (C10_missing_path_raises Demo.ext Demo.deployed Demo.pathless DELETE []).
  - reflexivity.
  - by vm_compute.
  - intros _. by vm_compute.
  - intros _. exists JNull. by vm_compute.
Defined.

(** * Further properties of the gate, the signer and the proxy *)

(** ** When the signer calls out *)

Lemma append_assoc (a b c : string) : (a +:+ b) +:+ c = a +:+ b +:+ c.
Proof.
  induction a as [|x a IH]; [reflexivity |].
  change (String x ((a +:+ b) +:+ c) = String x (a +:+ b +:+ c)). by rewrite IH.
Qed.

Lemma req_call_known method :
  is_Some (req_call method) <-> method ∈ ["POST"; "GET"; "PUT"; "PATCH"; "DELETE"].
Proof.
  unfold req_call, Dict.get. rewrite !elem_of_cons, elem_of_nil.
  repeat case_decide; subst; split; intros Hm; try (by eexists); try tauto.
  - by destruct Hm.
  - destruct Hm as [?|[?|[?|[?|[?|[]]]]]]; congruence.
Qed.

(** A run of the signer that adds to the log has passed the three checks
    and has built its one call from its arguments. *)
Lemma sigv4_request_inv ext method host path params headers body w r w' :
  sigv4_request ext method host path params headers body w = (r, w') ->
  w' <> w ->
  exists h a b region d credentials verb c,
    host = Some h
    /\ Py.split_max "." 3 (endpoint_of h) = [a; b; region; d]
    /\ get_credentials ext = Some credentials
    /\ req_call method = Some verb
    /\ w' = (w ++ [c])%list
    /\ r = send ext c
    /\ call_verb c = verb
    /\ call_url c
       = prepare_url ext
           (h +:+ Py.fmt path +:+ "?"
              +:+ Py.join "&" (List.map (fun kv => kv.1 +:+ "=" +:+ kv.2) params))
    /\ call_data c = (if truthy body then Some (json_dumps ext body) else None)
    /\ call_headers c
       = fold_left (fun hs kv => <[Py.lower kv.1 := kv.2]> hs) headers
           (let signed :=
              sigv4_headers ext credentials "execute-api" region method
                (h +:+ Py.fmt path +:+ "?"
                   +:+ Py.join "&" (List.map (fun kv => kv.1 +:+ "=" +:+ kv.2) params))
                (if truthy body then Some (json_dumps ext body) else None) in
            if truthy body then <["content-type" := "application/json"]> signed
            else signed)
    /\ call_timeout c = Some 30%Z.
Proof.
  unfold sigv4_request, raise, dispatch. intros Hrun Hgrew.
  assert (Hstays : forall e, (Raise e, w) = (r, w') -> False).
  { intros e He. injection He as Hr Hw. by symmetry in Hw. }
  destruct host as [h|]; cbn beta iota in Hrun; [| by destruct (Hstays _ Hrun)].
  destruct (Py.split_max "." 3 (endpoint_of h))
    as [|a [|b [|region [|d [|? ?]]]]] eqn:Hsplit;
    cbn beta iota in Hrun; try (by destruct (Hstays _ Hrun)).
  destruct (get_credentials ext) as [credentials|] eqn:Hcred;
    cbn beta iota in Hrun; [| by destruct (Hstays _ Hrun)].
  destruct (req_call method) as [verb|] eqn:Hverb;
    cbn beta iota in Hrun; [| by destruct (Hstays _ Hrun)].
  injection Hrun as Hr Hw. subst r w'.
  eexists h, a, b, region, d, credentials, verb, _.
  repeat split; first [assumption | reflexivity].
Qed.

(** X1.  The signer calls the back end exactly when its host has at
    least four labels, credentials are at hand and the method is one of the
    five it knows (in capitals); in every other case it raises and the log
    of calls stays as it was. *)
Theorem sigv4_request_calls_iff
    (ext : Externals) (method : string) (host path : option string)
    (params headers : Dict.t) (body : Json) (w : World) :
  (exists c, (sigv4_request ext method host path params headers body w).2
             = (w ++ [c])%list)
  <-> (exists h, host = Some h /\ 4 <= length (Py.split "." (endpoint_of h)))
      /\ is_Some (get_credentials ext)
      /\ method ∈ ["POST"; "GET"; "PUT"; "PATCH"; "DELETE"].
Proof.
  split.
  - intros [c Hc].
    destruct (sigv4_request ext method host path params headers body w)
      as [r w'] eqn:Hrun. simpl in Hc. subst w'.
    destruct (sigv4_request_inv _ _ _ _ _ _ _ _ _ _ Hrun)
      as (h & a & b & region & d & credentials & verb & c' & -> & Hsplit
          & Hcred & Hverb & _).
    { intros Hw. apply (f_equal length) in Hw. rewrite length_app in Hw.
      simpl in Hw. lia. }
    split; [| split].
    + exists h. split; [done |]. rewrite length_split.
      pose proof (length_split_max "." 3 (endpoint_of h)) as Hlen.
      rewrite Hsplit in Hlen. cbn [length] in Hlen. lia.
    + by rewrite Hcred.
    + apply req_call_known. by rewrite Hverb.
  - intros ([h [-> Hlabels]] & [credentials Hcred] & Hmethod).
    apply req_call_known in Hmethod as [verb Hverb].
    rewrite length_split in Hlabels.
    pose proof (length_split_max "." 3 (endpoint_of h)) as Hlen.
    unfold sigv4_request, dispatch.
    destruct (Py.split_max "." 3 (endpoint_of h)) as [|a [|b [|region [|d [|? ?]]]]];
      cbn [length] in Hlen; try lia.
    rewrite Hcred, Hverb. by eexists.
Qed.

(** X2.  A value that contains [&] is put into the query string as it
    is: the call made for the one parameter [k = v&k'=v'] is the call made
    for the two parameters [k = v] and [k' = v']. *)
Theorem sigv4_request_does_not_escape
    (ext : Externals) (method : string) (host path : option string)
    (headers : Dict.t) (body : Json) (k v k' v' : string) (w : World) :
  sigv4_request ext method host path
    [(k, v +:+ "&" +:+ k' +:+ "=" +:+ v')] headers body w
  = sigv4_request ext method host path [(k, v); (k', v')] headers body w.
Proof.
  assert (Hq : Py.join "&" (List.map (fun kv : string * string => kv.1 +:+ "=" +:+ kv.2)
                              [(k, v +:+ "&" +:+ k' +:+ "=" +:+ v')])
               = Py.join "&" (List.map (fun kv : string * string => kv.1 +:+ "=" +:+ kv.2)
                                [(k, v); (k', v')])).
  { simpl. by rewrite !append_assoc. }
  unfold sigv4_request. by rewrite Hq.
Qed.

(** ** Who passes the gate *)

(** Outside local mode the gate lets a request through only with a token
    that verifies, and then because authorization is off, or the group is
    guest, or the token carries the group. *)
Lemma authenticate_passed_inv ext cfg request group :
  running_local cfg = false ->
  authenticate ext cfg request group = Return None ->
  exists token decoded,
    cookies request !! "accessToken" = Some token
    /\ token <> EmptyString
    /\ jwt_decode ext token (USER_POOL_ID cfg) = Return decoded
    /\ (disable_auth cfg = true \/ group = "guest"
        \/ group ∈ default [] (cognito_groups decoded)).
Proof.
  intros Hloc Hpass.
  destruct (cookies request !! "accessToken") as [token|] eqn:Hcookie;
    [| by rewrite authenticate_no_cookie in Hpass].
  destruct (decide (token = EmptyString)) as [->|Hne];
    [by rewrite authenticate_empty_cookie in Hpass |].
  rewrite (authenticate_with_token ext cfg request group token Hloc Hcookie Hne) in Hpass.
  destruct (jwt_decode ext token (USER_POOL_ID cfg)) as [decoded|e] eqn:Hdec;
    [| by destruct e].
  exists token, decoded. repeat split; try done.
  destruct (disable_auth cfg); [by left | right].
  destruct (decide (group = "guest")) as [?|Hg]; [by left | right].
  destruct (decide (group ∈ default [] (cognito_groups decoded))) as [?|Hin]; [done |].
  rewrite (bool_decide_eq_false_2 _ Hg) in Hpass.
  rewrite bool_decide_eq_false_2 in Hpass; [done |].
  intros ?. by apply Hin, elem_of_groups_of.
Qed.

(** X3.  The guest gate is not open to everyone: outside local mode a
    request passes it exactly when it brings a token that verifies. *)
Theorem guest_gate_needs_valid_token
    (ext : Externals) (cfg : Config) (request : Request) :
  running_local cfg = false ->
  authenticate ext cfg request "guest" = Return None
  <-> exists token decoded,
        cookies request !! "accessToken" = Some token
        /\ token <> EmptyString
        /\ jwt_decode ext token (USER_POOL_ID cfg) = Return decoded.
Proof.
  intros Hloc. split.
  - intros Hpass.
    destruct (authenticate_passed_inv ext cfg request "guest" Hloc Hpass)
      as (token & decoded & ? & ? & ? & _).
    by exists token, decoded.
  - intros (token & decoded & Hcookie & Hne & Hdec).
    rewrite (authenticate_with_token ext cfg request "guest" token Hloc Hcookie Hne), Hdec.
    by rewrite andb_false_r.
Qed.

(** Without a token even the guest gate stays shut. *)
Lemma guest_gate_witness :
  authenticate Demo.ext Demo.deployed Demo.anonymous "guest" <> Return None.
Proof.
  intros Hpass.
  apply (guest_gate_needs_valid_token Demo.ext Demo.deployed Demo.anonymous
           ltac:(by vm_compute)) in Hpass.
  destruct Hpass as (token & decoded & Hcookie & _). by vm_compute in Hcookie.
Defined.

(** X4.  The gate catches the verifier's two exceptions it names and
    lets every other one through: when [authenticate] raises, the instance
    is not in local mode, the request brought a token, the verifier raised
    that same exception on it, and the exception is neither the expiry nor
    the signature error. *)
Theorem authenticate_raises_what_verifier_raises
    (ext : Externals) (cfg : Config) (request : Request) (group : string) (e : exn) :
  authenticate ext cfg request group = Raise e ->
  running_local cfg = false
  /\ e <> ExpiredSignatureError
  /\ e <> JWSSignatureError
  /\ exists token,
      cookies request !! "accessToken" = Some token
      /\ jwt_decode ext token (USER_POOL_ID cfg) = Raise e.
Proof.
  intros Hraise.
  destruct (running_local cfg) eqn:Hloc; [by rewrite authenticate_local in Hraise |].
  destruct (cookies request !! "accessToken") as [token|] eqn:Hcookie;
    [| by rewrite authenticate_no_cookie in Hraise].
  destruct (decide (token = EmptyString)) as [->|Hne];
    [by rewrite authenticate_empty_cookie in Hraise |].
  rewrite (authenticate_with_token ext cfg request group token Hloc Hcookie Hne) in Hraise.
  destruct (jwt_decode ext token (USER_POOL_ID cfg)) as [decoded|e'] eqn:Hdec.
  - by destruct (negb (disable_auth cfg) && negb (bool_decide (group = "guest"))
                 && negb (bool_decide (group ∈ groups_of decoded))).
  - destruct e'; try done; injection Hraise as <-; repeat split; try done;
      by exists token.
Qed.

(** A token the verifier cannot read at all. *)
Lemma authenticate_raises_witness :
  running_local Demo.deployed = false
  /\ JWTError <> ExpiredSignatureError
  /\ JWTError <> JWSSignatureError
  /\ exists token,
      cookies (Demo.request_with (Some "garbage") [] [] (Return JNull))
        !! "accessToken" = Some token
      /\ jwt_decode Demo.ext token (USER_POOL_ID Demo.deployed) = Raise JWTError.
Proof.
  apply (authenticate_raises_what_verifier_raises Demo.ext Demo.deployed
           (Demo.request_with (Some "garbage") [] [] (Return JNull)) "user" JWTError).
  by vm_compute.
Defined.

(** ** What reaches the back end through the proxy *)

Section ProxyGates.

Variable ext : Externals.
Variable cfg : Config.
Variable request : Request.

Import PclusterApiHandler.

Lemma log_grew_not_raise (e : exn) (w w' : World) (r : result ViewResult) :
  (Raise e, w) = (r, w') -> w' <> w -> False.
Proof. intros Hrun Hgrew. injection Hrun as Hr Hw. by symmetry in Hw. Qed.

Lemma method_of_behind_admin verb w r w' :
  method_of ext cfg request verb w = (r, w') ->
  w' <> w ->
  verb <> GET ->
  authenticate ext cfg request "admin" = Return None.
Proof.
  intros Hrun Hgrew Hverb.
  assert (Hgate : forall rest : M ViewResult,
            (admin_or_401 ext cfg request;;; rest)%py w = (r, w') ->
            authenticate ext cfg request "admin" = Return None).
  { intros rest Hrest. unfold bind at 1 in Hrest.
    destruct (admin_or_401_cases ext cfg request w) as [[Ha _]|[_ [e He]]]; [done |].
    rewrite He in Hrest. by destruct (log_grew_not_raise _ _ _ _ Hrest Hgrew). }
  destruct verb; [done | | | |]; simpl in Hrun; by eapply Hgate.
Qed.

(** A run of the proxy that adds to the log has passed the user gate and
    has run its method. *)
Lemma dispatch_request_behind_user (verb : Verb) (w w' : World) (r : result ViewResult) :
  dispatch_request ext cfg request verb w = (r, w') ->
  w' <> w ->
  authenticate ext cfg request "user" = Return None
  /\ method_of ext cfg request verb w = (r, w').
Proof.
  intros Hrun Hgrew. unfold dispatch_request, authenticated in Hrun.
  unfold bind at 1, lift at 1 in Hrun.
  by destruct (authenticate ext cfg request "user") as [[stop|]|e];
    [destruct (log_grew_not_raise _ _ _ _ Hrun Hgrew) | |
     destruct (log_grew_not_raise _ _ _ _ Hrun Hgrew)].
Qed.

(** X5.  No call reaches the back end unless the gates have let the
    request through: a run of the proxy that adds a call to the log has
    passed the user gate and, for every verb but GET, the admin gate too. *)
Theorem backend_only_behind_gates (verb : Verb) (w w' : World) (r : result ViewResult) :
  dispatch_request ext cfg request verb w = (r, w') ->
  w' <> w ->
  authenticate ext cfg request "user" = Return None
  /\ (verb <> GET -> authenticate ext cfg request "admin" = Return None).
Proof.
  intros Hrun Hgrew.
  destruct (dispatch_request_behind_user verb w w' r Hrun Hgrew) as [Huser Hmethod].
  split; [done |]. intros Hverb.
  exact (method_of_behind_admin verb w r w' Hmethod Hgrew Hverb).
Qed.

(** X6.  On a deployed instance with authorization on, a call reaches
    the back end only for a token that verifies and carries the group user;
    for POST, PUT, PATCH and DELETE the same token must carry the group
    admin as well, so that a token in admin alone cannot write. *)
Theorem write_needs_user_and_admin (verb : Verb) (w w' : World) (r : result ViewResult) :
  running_local cfg = false ->
  disable_auth cfg = false ->
  dispatch_request ext cfg request verb w = (r, w') ->
  w' <> w ->
  exists token decoded,
    cookies request !! "accessToken" = Some token
    /\ jwt_decode ext token (USER_POOL_ID cfg) = Return decoded
    /\ "user" ∈ default [] (cognito_groups decoded)
    /\ (verb <> GET -> "admin" ∈ default [] (cognito_groups decoded)).
Proof.
  intros Hloc Hon Hrun Hgrew.
  destruct (dispatch_request_behind_user verb w w' r Hrun Hgrew) as [Huser Hmethod].
  pose proof (method_of_behind_admin verb w r w' Hmethod Hgrew) as Hadmin.
  destruct (authenticate_passed_inv ext cfg request "user" Hloc Huser)
    as (token & decoded & Hcookie & _ & Hdec & Hin).
  exists token, decoded. repeat split; try done.
  - destruct Hin as [?|[?|?]]; [congruence | done | done].
  - intros Hverb.
    destruct (authenticate_passed_inv ext cfg request "admin" Hloc (Hadmin Hverb))
      as (token' & decoded' & Hcookie' & _ & Hdec' & Hin').
    rewrite Hcookie in Hcookie'. injection Hcookie' as <-.
    rewrite Hdec in Hdec'. injection Hdec' as <-.
    destruct Hin' as [?|[?|?]]; [congruence | done | done].
Qed.

(** X7.  The proxy never answers with a page: whenever it returns, what
    it returns is the JSON document and the status code of the answer the
    back end gave to the one call it made. *)
Theorem proxy_returns_only_backend_answers
    (verb : Verb) (w w' : World) (v : ViewResult) :
  dispatch_request ext cfg request verb w = (Return v, w') ->
  exists c resp j,
    w' = (w ++ [c])%list
    /\ send ext c = Return resp
    /\ body resp = JsonBody j
    /\ v = ViewJson j (status_code resp).
Proof.
  intros Hrun.
  destruct (dispatch_request_cases ext cfg request verb w)
    as [[e He]|[c [Hc _]]]; rewrite Hrun in *; [done |].
  unfold json_and_status, response_json, bind, lift, ret in Hc.
  destruct (send ext c) as [resp|e] eqn:Hsend; [| done].
  destruct (body resp) as [j|text] eqn:Hbody; [| done].
  injection Hc as -> ->. by exists c, resp, j.
Qed.

(** X8.  At the proxy a request without a token, with an empty one or
    with an expired one is answered with a bare [abort(401)] and no call is
    made: the redirect the gate prepares is not sent.  A token the verifier
    rejects with another error, as it does a forged one with [JWTError],
    makes the proxy raise that error, again without a call. *)
Theorem proxy_refusal_is_401 (verb : Verb) (w : World) :
  running_local cfg = false ->
  (cookies request !! "accessToken" = None
   \/ cookies request !! "accessToken" = Some EmptyString
   \/ (exists token,
         cookies request !! "accessToken" = Some token
         /\ token <> EmptyString
         /\ jwt_decode ext token (USER_POOL_ID cfg) = Raise ExpiredSignatureError) ->
   dispatch_request ext cfg request verb w = (Raise (HTTPException 401), w))
  /\ (forall token e,
        cookies request !! "accessToken" = Some token ->
        token <> EmptyString ->
        jwt_decode ext token (USER_POOL_ID cfg) = Raise e ->
        e <> ExpiredSignatureError ->
        e <> JWSSignatureError ->
        dispatch_request ext cfg request verb w = (Raise e, w)).
Proof.
  intros Hloc. split.
  - intros Hstate. unfold dispatch_request.
    assert (authenticate ext cfg request "user" = Return (Some (auth_redirect cfg)))
      as Hstop.
    { destruct Hstate as [Hnone|[Hempty|(token & Hcookie & Hne & Hdec)]].
      - by apply authenticate_no_cookie.
      - by apply authenticate_empty_cookie.
      - by rewrite (authenticate_with_token _ _ _ _ _ Hloc Hcookie Hne), Hdec. }
    by rewrite (authenticated_stopped _ _ _ _ false _ _ _ Hstop).
  - intros token e Hcookie Hne Hdec Hexp Hsig.
    unfold dispatch_request, authenticated, bind, lift.
    rewrite (authenticate_with_token _ _ _ _ _ Hloc Hcookie Hne), Hdec.
    by destruct e.
Qed.

End ProxyGates.

Lemma backend_only_behind_gates_witness :
  authenticate Demo.ext Demo.deployed Demo.as_admin "user" = Return None
  /\ (POST <> GET -> authenticate Demo.ext Demo.deployed Demo.as_admin "admin" = Return None).
Proof.
  assert (Hrun : exists r w',
    PclusterApiHandler.dispatch_request Demo.ext Demo.deployed Demo.as_admin POST []
      = (r, w') /\ w' <> []) by (do 2 eexists; split; [by vm_compute | done]).
  destruct Hrun as (r & w' & Hrun & Hgrew).
  exact (backend_only_behind_gates Demo.ext Demo.deployed Demo.as_admin POST [] w' r
           Hrun Hgrew).
Defined.

Lemma write_needs_user_and_admin_witness :
  exists token decoded,
    cookies Demo.as_admin !! "accessToken" = Some token
    /\ jwt_decode Demo.ext token (USER_POOL_ID Demo.deployed) = Return decoded
    /\ "user" ∈ default [] (cognito_groups decoded)
    /\ (PUT <> GET -> "admin" ∈ default [] (cognito_groups decoded)).
Proof.
  assert (Hrun : exists r w',
    PclusterApiHandler.dispatch_request Demo.ext Demo.deployed Demo.as_admin PUT []
      = (r, w') /\ w' <> []) by (do 2 eexists; split; [by vm_compute | done]).
  destruct Hrun as (r & w' & Hrun & Hgrew).
  exact (write_needs_user_and_admin Demo.ext Demo.deployed Demo.as_admin PUT [] w' r
           ltac:(by vm_compute) ltac:(by vm_compute) Hrun Hgrew).
Defined.

Lemma proxy_returns_witness :
  exists c resp j,
    [c] = ([] ++ [c])%list
    /\ send Demo.ext c = Return resp
    /\ body resp = JsonBody j
    /\ ViewJson (JObj [("message", JStr "cluster not found")]) 404
       = ViewJson j (status_code resp).
Proof.
  assert (Hrun : exists c,
    PclusterApiHandler.dispatch_request Demo.ext Demo.deployed Demo.as_user GET []
      = (Return (ViewJson (JObj [("message", JStr "cluster not found")]) 404), [c]))
    by (eexists; by vm_compute).
  destruct Hrun as [c0 Hrun].
  destruct (proxy_returns_only_backend_answers Demo.ext Demo.deployed Demo.as_user
              GET [] [c0] _ Hrun) as (c & resp & j & Hw & Hsend & Hbody & Hv).
  injection Hw as <-. by exists c0, resp, j.
Defined.

(** An expired token and a forged one at the proxy. *)
Lemma proxy_refusal_witness :
  PclusterApiHandler.dispatch_request Demo.ext Demo.deployed Demo.stale DELETE []
  = (Raise (HTTPException 401), [])
  /\ PclusterApiHandler.dispatch_request Demo.ext Demo.deployed Demo.forged DELETE []
     = (Raise JWTError, []).
Proof.
  destruct (proxy_refusal_is_401 Demo.ext Demo.deployed Demo.stale DELETE []
              ltac:(by vm_compute)) as [Hrefused _].
  destruct (proxy_refusal_is_401 Demo.ext Demo.deployed Demo.forged DELETE []
              ltac:(by vm_compute)) as [_ Hraised].
  split.
  - apply Hrefused. right. right. exists "stale-token". by repeat split.
  - by apply (Hraised "forged-token" JWTError).
Defined.

(** ** The shape of the forwarded parameters *)

Section ParamsShape.

Implicit Types (d : Dict.t) (k : string).

Lemma remove_sublist k d : sublist (Dict.remove k d) d.
Proof.
  unfold Dict.remove. induction d as [|[k' v] d IH]; simpl; [constructor |].
  destruct (bool_decide (k' = k)); simpl; by constructor.
Qed.

Lemma of_multidict_sublist (m : list (string * string)) :
  sublist (Dict.of_multidict m) m.
Proof.
  induction m as [|[k v] m IH]; simpl; [constructor |].
  apply sublist_skip. by etrans; [apply remove_sublist |].
Qed.

Lemma keys_remove k k' d : k' ∈ (Dict.remove k d).*1 -> k' <> k /\ k' ∈ d.*1.
Proof.
  unfold Dict.remove. induction d as [|[k0 v] d IH]; simpl; [by intros ?%elem_of_nil |].
  destruct (decide (k0 = k)) as [->|Hne].
  - rewrite bool_decide_eq_true_2 by done. simpl. intros [? ?]%IH.
    split; [done |]. by right.
  - rewrite bool_decide_eq_false_2 by done. simpl.
    intros [->|[? ?]%IH]%elem_of_cons; split; try done; [by left | by right].
Qed.

Lemma keys_remove_NoDup k d : NoDup d.*1 -> NoDup (Dict.remove k d).*1.
Proof.
  unfold Dict.remove. induction d as [|[k0 v] d IH]; simpl; [done |].
  intros [Hnotin Hnodup]%NoDup_cons.
  destruct (bool_decide (k0 = k)); simpl; [by apply IH |].
  apply NoDup_cons. split; [| by apply IH].
  intros Hin. apply Hnotin. by apply (keys_remove k k0 d).
Qed.

Lemma of_multidict_NoDup (m : list (string * string)) : NoDup (Dict.of_multidict m).*1.
Proof.
  induction m as [|[k v] m IH]; simpl; [constructor |].
  apply NoDup_cons. split; [| by apply keys_remove_NoDup].
  intros Hin. by apply keys_remove in Hin as [? _].
Qed.

(** X9.  The parameters the proxy forwards are a dictionary in the order
    of the query string: their keys are distinct, [path] is not among them,
    and they are items of the query string in their original order. *)
Theorem _get_params_shape (request : Request) (params : Dict.t) :
  _get_params request = Return params ->
  NoDup (params.*1) /\ ("path" ∉ params.*1) /\ sublist params (args request).
Proof.
  unfold _get_params, Dict.pop. intros Hparams.
  destruct (Dict.get "path" (Dict.of_multidict (args request))); [| done].
  injection Hparams as <-. split; [| split].
  - apply keys_remove_NoDup, of_multidict_NoDup.
  - intros Hin. by apply keys_remove in Hin as [? _].
  - etrans; [apply remove_sublist | apply of_multidict_sublist].
Qed.

End ParamsShape.

(** A query string that repeats a key. *)
Lemma _get_params_shape_witness :
  NoDup ([("region", "us-east-1"); ("verbose", "true")].*1)
  /\ ("path" ∉ [("region", "us-east-1"); ("verbose", "true")].*1)
  /\ sublist [("region", "us-east-1"); ("verbose", "true")]
       [("region", "us-east-1"); ("path", "/v3/clusters"); ("verbose", "true");
        ("region", "eu-west-1")].
Proof.
  apply (_get_params_shape
           (Demo.request_with None
              [("region", "us-east-1"); ("path", "/v3/clusters"); ("verbose", "true");
               ("region", "eu-west-1")] [] (Return JNull))).
  reflexivity.
Defined.

(** ** The body the proxy sends *)

(** X10.  The body the proxy sends with its call is the caller's JSON
    document, serialized, unless that document is empty in Python's sense
    ([null], [false], [0], an empty string, list or object): then the call
    carries no data.  GET never carries data; DELETE carries what
    [delete_body] selected. *)
Theorem proxy_sends_truthy_body_only
    (ext : Externals) (cfg : Config) (request : Request) (verb : Verb)
    (w : World) (c : OutCall) (r : result ViewResult) :
  PclusterApiHandler.dispatch_request ext cfg request verb w = (r, (w ++ [c])%list) ->
  exists sent,
    match verb with
    | GET => sent = JNull
    | DELETE => PclusterApiHandler.delete_body request = Return sent
    | _ => json request = Return sent
    end
    /\ call_data c = if truthy sent then Some (json_dumps ext sent) else None.
Proof.
  intros Hrun.
  assert (Hgrew : (w ++ [c])%list <> w).
  { intros Hw. apply (f_equal length) in Hw. rewrite length_app in Hw.
    simpl in Hw. lia. }
  destruct (dispatch_request_behind_user ext cfg request verb w _ r Hrun Hgrew)
    as [Huser Hmethod].
  pose proof (method_of_behind_admin ext cfg request verb w r _ Hmethod Hgrew) as Hadmin.
  unfold PclusterApiHandler.dispatch_request in Hrun.
  rewrite (authenticated_passed _ _ _ _ _ _ _ Huser) in Hrun.
  assert (Hdata : forall method path params sent out,
    (resp <- sigv4_request ext method (API_BASE_URL cfg) path params [] sent;;
     PclusterApiHandler.json_and_status resp)%py w = out ->
    out.2 = (w ++ [c])%list ->
    call_data c = if truthy sent then Some (json_dumps ext sent) else None).
  { intros method path params sent out <- Hc.
    destruct (forwarding_cases ext method (API_BASE_URL cfg) path params sent w)
      as [[e He]|[c' (Hc' & _ & Hd)]]; rewrite ?He, ?Hc' in Hc.
    - by destruct Hgrew.
    - unfold bind, lift in Hc.
      assert (c' = c) as ->; [| done].
      destruct (send ext c') as [resp|e]; simpl in Hc;
        [unfold PclusterApiHandler.json_and_status, bind, lift, ret in Hc;
         destruct (response_json resp); simpl in Hc |];
        apply app_inv_head in Hc; by injection Hc. }
  assert (Hadmin_run : verb <> GET ->
            PclusterApiHandler.admin_or_401 ext cfg request w = (Return tt, w)).
  { intros Hverb.
    destruct (admin_or_401_cases ext cfg request w) as [[_ ?]|[Hno _]]; [done |].
    by destruct Hno, Hadmin. }
  assert (Hwith : forall method,
    PclusterApiHandler.with_body ext cfg request method w = (r, (w ++ [c])%list) ->
    verb <> GET ->
    exists sent, json request = Return sent
      /\ call_data c = if truthy sent then Some (json_dumps ext sent) else None).
  { intros method Hm Hverb. unfold PclusterApiHandler.with_body in Hm.
    unfold bind at 1 in Hm. rewrite (Hadmin_run Hverb) in Hm.
    unfold bind at 1, lift at 1 in Hm.
    destruct (_get_params request) as [params|e];
      [| by destruct (log_grew_not_raise _ _ _ _ Hm Hgrew)].
    unfold bind at 1, lift at 1 in Hm.
    destruct (json request) as [sent|e];
      [| by destruct (log_grew_not_raise _ _ _ _ Hm Hgrew)].
    exists sent. split; [done |].
    by apply (Hdata method (args_get "path" request) params sent _ Hm). }
  destruct verb; simpl in Hrun.
  - exists JNull. split; [done |].
    unfold PclusterApiHandler.get in Hrun. unfold bind at 1, lift at 1 in Hrun.
    destruct (_get_params request) as [params|e];
      [| by destruct (log_grew_not_raise _ _ _ _ Hrun Hgrew)].
    by apply (Hdata "GET" (args_get "path" request) params JNull _ Hrun).
  - by apply (Hwith "POST").
  - by apply (Hwith "PUT").
  - by apply (Hwith "PATCH").
  - unfold PclusterApiHandler.delete in Hrun. unfold bind at 1 in Hrun.
    rewrite Hadmin_run in Hrun by done.
    unfold bind at 1, lift at 1 in Hrun.
    destruct (PclusterApiHandler.delete_body request) as [sent|e];
      [| by destruct (log_grew_not_raise _ _ _ _ Hrun Hgrew)].
    exists sent. split; [done |].
    unfold bind at 1, lift at 1 in Hrun.
    destruct (_get_params request) as [params|e];
      [| by destruct (log_grew_not_raise _ _ _ _ Hrun Hgrew)].
    by apply (Hdata "DELETE" (args_get "path" request) params sent _ Hrun).
Qed.

(** An admin's POST of the empty object goes out without data. *)
Lemma proxy_sends_truthy_body_witness :
  exists c sent,
    json (Demo.request_with (Some "admin-token") Demo.cluster_query [] (Return (JObj [])))
      = Return sent
    /\ call_data c = if truthy sent then Some (json_dumps Demo.ext sent) else None.
Proof.
  assert (Hrun : exists r c,
    PclusterApiHandler.dispatch_request Demo.ext Demo.deployed
      (Demo.request_with (Some "admin-token") Demo.cluster_query [] (Return (JObj [])))
      POST [] = (r, ([] ++ [c])%list)) by (do 2 eexists; by vm_compute).
  destruct Hrun as (r & c & Hrun). exists c.
  exact (proxy_sends_truthy_body_only Demo.ext Demo.deployed _ POST [] c r Hrun).
Defined.

(** ** Reading the query string back *)

Section SplitJoin.

Variable sep : ascii.

Lemma append_cons (c : ascii) (a b : string) : String c a +:+ b = String c (a +:+ b).
Proof. reflexivity. Qed.

Lemma append_empty_l (b : string) : EmptyString +:+ b = b.
Proof. reflexivity. Qed.

Lemma length_append (a b : string) :
  String.length (a +:+ b) = String.length a + String.length b.
Proof.
  induction a as [|c a IH]; [done |]. rewrite append_cons. simpl. by rewrite IH.
Qed.

Lemma count_append (a b : string) :
  Py.count sep (a +:+ b) = Py.count sep a + Py.count sep b.
Proof.
  induction a as [|c a IH]; [done |]. rewrite append_cons. simpl. rewrite IH. lia.
Qed.

Lemma split_max_zero s : Py.split_max sep 0 s = [s].
Proof.
  induction s as [|c s IH]; simpl; [done |].
  destruct (Ascii.eqb c sep); [done | by rewrite IH].
Qed.

(** A string without the separator is one field. *)
Lemma split_max_no_sep n s : Py.count sep s = 0 -> Py.split_max sep n s = [s].
Proof.
  induction s as [|c s IH]; simpl; [done |].
  destruct (Ascii.eqb c sep); [lia |]. intros Hs. by rewrite IH.
Qed.

(** The first cut falls at the first separator. *)
Lemma split_max_append n a b :
  Py.count sep a = 0 ->
  Py.split_max sep (S n) (a +:+ String sep b) = a :: Py.split_max sep n b.
Proof.
  induction a as [|c a IH]; intros Ha.
  - rewrite append_empty_l. simpl. by rewrite Ascii.eqb_refl.
  - rewrite append_cons. simpl in *.
    destruct (Ascii.eqb c sep); [lia |]. by rewrite IH.
Qed.

Lemma length_join (parts : list string) :
  length parts - 1 <= String.length (Py.join (String sep EmptyString) parts).
Proof.
  induction parts as [|p [|q rest] IH]; simpl in *; [lia | lia |].
  rewrite !length_append. simpl in *. lia.
Qed.

(** Splitting what [join] has put together gives the parts back, as long
    as no part holds the separator. *)
Lemma split_max_join n (parts : list string) :
  parts <> [] ->
  Forall (fun p => Py.count sep p = 0) parts ->
  length parts - 1 <= n ->
  Py.split_max sep n (Py.join (String sep EmptyString) parts) = parts.
Proof.
  revert n. induction parts as [|p [|q rest] IH]; intros n Hne Hparts Hn; [done | |].
  - apply Forall_cons in Hparts as [Hp _]. simpl. by apply split_max_no_sep.
  - apply Forall_cons in Hparts as [Hp Hrest].
    destruct n as [|n]; [simpl in Hn; lia |].
    change (Py.join (String sep EmptyString) (p :: q :: rest))
      with (p +:+ String sep (Py.join (String sep EmptyString) (q :: rest))).
    rewrite split_max_append by done. f_equal.
    apply IH; [done | done | simpl in *; lia].
Qed.

Lemma split_join (parts : list string) :
  parts <> [] ->
  Forall (fun p => Py.count sep p = 0) parts ->
  Py.split sep (Py.join (String sep EmptyString) parts) = parts.
Proof.
  intros Hne Hparts. unfold Py.split.
  apply split_max_join; [done | done | apply length_join].
Qed.

End SplitJoin.

(** X11.  When no key holds [&] or [=] and no value holds [&], the query
    string of the call the signer makes can be read back: cutting it at
    every [&] and each piece at its first [=] gives the parameters, in
    their order. *)
Theorem query_string_reads_back
    (ext : Externals) (method : string) (host path : option string)
    (params headers : Dict.t) (body : Json) (w : World) (c : OutCall)
    (r : result Response) :
  params <> [] ->
  Forall (fun kv : string * string =>
            Py.count "&" kv.1 = 0 /\ Py.count "=" kv.1 = 0 /\ Py.count "&" kv.2 = 0)
    params ->
  sigv4_request ext method host path params headers body w = (r, (w ++ [c])%list) ->
  exists h query,
    host = Some h
    /\ call_url c = prepare_url ext (h +:+ Py.fmt path +:+ "?" +:+ query)
    /\ Forall2 (fun field (kv : string * string) =>
                  Py.split_max "=" 1 field = [kv.1; kv.2])
         (Py.split "&" query) params.
Proof.
  intros Hne Hclean Hrun.
  assert (Hgrew : (w ++ [c])%list <> w).
  { intros Hw. apply (f_equal length) in Hw. rewrite length_app in Hw.
    simpl in Hw. lia. }
  destruct (sigv4_request_inv _ _ _ _ _ _ _ _ _ _ Hrun Hgrew)
    as (h & a & b & region & d & credentials & verb & c' & -> & _ & _ & _
        & Hw & _ & _ & Hurl & _).
  apply app_inv_head in Hw. injection Hw as <-.
  exists h, (Py.join "&" (List.map (fun kv => kv.1 +:+ "=" +:+ kv.2) params)).
  split; [done |]. split; [done |].
  rewrite (split_join "&").
  - clear -Hclean. induction Hclean as [|[k v] params (Hk & Hk' & Hv) _ IH];
      simpl; constructor; [| done].
    change (k +:+ "=" +:+ v) with (k +:+ String "=" v).
    by rewrite split_max_append, split_max_zero.
  - by destruct params.
  - clear -Hclean. induction Hclean as [|[k v] params (Hk & Hk' & Hv) _ IH];
      simpl; constructor; [| done].
    change (k +:+ "=" +:+ v) with (k +:+ String "=" v).
    rewrite count_append. simpl in *. lia.
Qed.

Lemma query_string_witness :
  exists h query,
    API_BASE_URL Demo.deployed = Some h
    /\ query = "region=us-east-1&verbose=true"
    /\ Forall2 (fun field (kv : string * string) =>
                  Py.split_max "=" 1 field = [kv.1; kv.2])
         (Py.split "&" query) [("region", "us-east-1"); ("verbose", "true")].
Proof.
  assert (Hrun : exists r c,
    sigv4_request Demo.ext "GET" (API_BASE_URL Demo.deployed) (Some "/v3/clusters")
      [("region", "us-east-1"); ("verbose", "true")] [] JNull []
    = (r, ([] ++ [c])%list)) by (do 2 eexists; by vm_compute).
  destruct Hrun as (r & c & Hrun).
  destruct (query_string_reads_back Demo.ext "GET" (API_BASE_URL Demo.deployed)
              (Some "/v3/clusters") [("region", "us-east-1"); ("verbose", "true")]
              [] JNull [] c r
              ltac:(discriminate)
              ltac:(repeat constructor)
              Hrun) as (h & query & Hh & _ & _).
  exists h, "region=us-east-1&verbose=true".
  split; [done |]. split; [done |]. repeat constructor.
Defined.

(** * The local endpoints *)

(** ** Splitting and joining *)

Lemma split_max_not_nil sep n s : Py.split_max sep n s <> [].
Proof.
  intros Hnil. apply (f_equal length) in Hnil.
  rewrite length_split_max in Hnil. done.
Qed.

Lemma join_cons_cons sep p q rest :
  Py.join sep (p :: q :: rest) = p +:+ sep +:+ Py.join sep (q :: rest).
Proof. reflexivity. Qed.

Lemma join_String sep c field fields :
  Py.join sep (String c field :: fields) = String c (Py.join sep (field :: fields)).
Proof. destruct fields; reflexivity. Qed.

(** Joining the pieces of a split with the separator gives the string
    back, whatever the bound on the cuts. *)
Lemma join_split_max sep n s :
  Py.join (String sep EmptyString) (Py.split_max sep n s) = s.
Proof.
  revert n. induction s as [|c s IH]; intros n; simpl; [done |].
  destruct (Ascii.eqb_spec c sep) as [->|Hne].
  - destruct n as [|m]; [done |].
    specialize (IH m). pose proof (split_max_not_nil sep m s) as Hnil.
    destruct (Py.split_max sep m s) as [|x xs]; [done |].
    rewrite join_cons_cons, IH. reflexivity.
  - specialize (IH n). pose proof (split_max_not_nil sep n s) as Hnil.
    destruct (Py.split_max sep n s) as [|field fields]; [done |].
    by rewrite join_String, IH.
Qed.

Lemma join_split sep s : Py.join (String sep EmptyString) (Py.split sep s) = s.
Proof. apply join_split_max. Qed.

(** ** Starting and stopping instances *)

(** X12.  [ec2_action] answers success only after exactly one call to
    EC2, the one the action names, for the region the request names; the
    instance ids it passes are the pieces of the parameter between commas,
    so that joining them with commas gives the parameter back.  In every
    other case (no [instance_ids], an action it does not know, no client)
    nothing is asked of EC2. *)
Theorem ec2_action_calls_once
    (svc : Services) (request : Request) (log : list AwsCall) :
  let out := ec2_action svc request log in
  (out.2 = log /\ out.1 <> Return (Plain (message "success")))
  \/ exists ids instance_ids,
      args_get "instance_ids" request = Some ids
      /\ Py.join "," instance_ids = ids
      /\ ((args_get "action" request = Some "stop_instances"
           /\ out.2 = (log ++ [Ec2StopInstances (region_config request) instance_ids])%list)
          \/ (args_get "action" request = Some "start_instances"
              /\ out.2 = (log ++ [Ec2StartInstances (region_config request)
                                    instance_ids])%list)).
Proof.
  intros out. subst out. unfold ec2_action, aws_bind, aws_lift, aws_call, aws_ret.
  destruct (boto3_client svc "ec2" (region_config request)); [| by left].
  destruct (args_get "instance_ids" request) as [ids|]; [| by left].
  case_bool_decide as Hstop.
  - right. exists ids, (Py.split "," ids). split; [done |].
    split; [apply (join_split ","%char) |]. left. split; [done |].
    by destruct (aws_answer svc _).
  - case_bool_decide as Hstart; [| by left].
    right. exists ids, (Py.split "," ids). split; [done |].
    split; [apply (join_split ","%char) |]. right. split; [done |].
    by destruct (aws_answer svc _).
Qed.

(** ** The job endpoints *)

Lemma json_lookup_remove_ne k k' members :
  k <> k' -> json_lookup k (json_remove k' members) = json_lookup k members.
Proof.
  intros Hne. unfold json_lookup, json_remove.
  induction members as [|[k0 v] members IH]; simpl; [done |].
  destruct (decide (k0 = k')) as [->|Hne'].
  - rewrite bool_decide_eq_true_2 by done. simpl.
    rewrite bool_decide_eq_false_2 by done. exact IH.
  - rewrite (bool_decide_eq_false_2 (k0 = k')) by done. simpl.
    destruct (bool_decide (k0 = k)); [done | exact IH].
Qed.

(** X13.  How a failure of [ssm_command] (its pair of a message and a
    status) comes out of each job endpoint: [submit_job] hands the pair
    back, [cancel_job] answers success all the same, and [scontrol_job] and
    [queue_status] raise, the one because a pair cannot be stripped, the
    other because a pair is not JSON text. *)
Theorem ssm_failure_surfaces
    (svc : Services) (request : Request) (log : list AwsCall) (j : Json) (code : Z) :
  (forall c, ssm_outcome svc c = Return (SsmFailed j code)) ->
  (cancel_job svc request log).1 = Return (Plain (JObj [("status", JStr "success")]))
  /\ (queue_status svc request log).1 = Raise TypeError
  /\ (forall job_id,
        args_get "job_id" request = Some job_id -> job_id <> EmptyString ->
        (scontrol_job svc request log).1 = Raise AttributeError)
  /\ (forall members command,
        json request = Return (JObj members) ->
        json_lookup "command" members = Some command ->
        (submit_job svc request log).1 = Return (WithStatus j code)).
Proof.
  intros Hfail. repeat split.
  - unfold cancel_job, ssm_command, aws_bind, aws_ret. by rewrite Hfail.
  - unfold queue_status, ssm_command, aws_bind, aws_raise. by rewrite Hfail.
  - intros job_id Hjob Hne. unfold scontrol_job. rewrite Hjob.
    destruct job_id; [done |].
    unfold ssm_command, aws_bind, aws_raise. simpl. by rewrite Hfail.
  - intros members command Hbody Hcommand.
    unfold submit_job, aws_bind at 1, aws_lift at 1. rewrite Hbody.
    rewrite json_lookup_remove_ne by done. rewrite Hcommand.
    unfold ssm_command, aws_bind, aws_ret. by rewrite Hfail.
Qed.

Lemma ssm_failure_witness :
  (scontrol_job Scene.timed_out (Scene.with_query [("job_id", "7")] (Return JNull)) []).1
  = Raise AttributeError.
Proof.
  destruct (ssm_failure_surfaces Scene.timed_out
              (Scene.with_query [("job_id", "7")] (Return JNull)) []
              (message "Timed out waiting for command to complete.") 500
              ltac:(reflexivity)) as (_ & _ & Hscontrol & _).
  by apply (Hscontrol "7").
Defined.

Lemma dict_of_pairs_malformed kvs d :
  Exists (fun kv => length kv <> 2) kvs -> dict_of_pairs kvs d = Raise ValueError.
Proof.
  intros Hbad. revert d. induction Hbad as [kv kvs Hkv|kv kvs _ IH]; intros d.
  - destruct kv as [|k [|v [|? ?]]]; simpl in *; done.
  - destruct kv as [|k [|v [|? ?]]]; simpl; first [done | apply IH].
Qed.

(** X14.  For an output in ASCII, [scontrol_job] raises [ValueError] as
    soon as one of the pieces of the stripped output between spaces holds no
    [=]: a doubled space does it, and so does an empty output. *)
Theorem scontrol_job_needs_equals_everywhere
    (svc : Services) (request : Request) (log : list AwsCall)
    (job_id output field : string) :
  args_get "job_id" request = Some job_id ->
  job_id <> EmptyString ->
  ssm_outcome svc
    (SsmCommand (args_get "region" request) (args_get "instance_id" request)
       (ssm_user request) ("scontrol show job " +:+ job_id +:+ " -o"))
    = Return (SsmOutput output) ->
  isascii output = true ->
  field ∈ Py.split " " (strip output) ->
  Py.count "=" field = 0 ->
  (scontrol_job svc request log).1 = Raise ValueError.
Proof.
  intros Hjob Hne Hout _ Hfield Hnoeq. unfold scontrol_job. rewrite Hjob.
  destruct job_id; [done |].
  unfold ssm_command, aws_bind at 1. simpl negb. cbn iota. rewrite Hout.
  unfold aws_bind, aws_lift.
  rewrite dict_of_pairs_malformed; [done |].
  apply Exists_exists. exists [field]. split; [| simpl; lia].
  apply list_elem_of_In, in_map_iff. exists field. split.
  - by apply split_max_no_sep.
  - by apply list_elem_of_In.
Qed.

(** The scheduler prints nothing. *)
Lemma scontrol_job_empty_output_witness :
  (scontrol_job Scene.silent (Scene.with_query [("job_id", "7")] (Return JNull)) []).1
  = Raise ValueError.
Proof.
  apply (scontrol_job_needs_equals_everywhere Scene.silent _ [] "7"
           EmptyString EmptyString); try done.
  by vm_compute; left.
Defined.

Lemma dict_set_fresh k v (d : Dict.t) : k ∉ d.*1 -> dict_set k v d = (d ++ [(k, v)])%list.
Proof.
  induction d as [|[k' v'] d IH]; simpl; [done |].
  intros [Hne Hnotin]%not_elem_of_cons.
  destruct (decide (k' = k)); [congruence |]. by rewrite IH.
Qed.

Lemma dict_of_pairs_fresh (pairs d : Dict.t) :
  NoDup ((d ++ pairs)%list.*1) ->
  dict_of_pairs (List.map (fun kv => [kv.1; kv.2]) pairs) d = Return (d ++ pairs)%list.
Proof.
  revert d. induction pairs as [|[k v] pairs IH]; intros d Hnodup; simpl.
  - by rewrite app_nil_r.
  - rewrite dict_set_fresh.
    + rewrite IH; rewrite <- app_assoc; [done | exact Hnodup].
    + rewrite fmap_app in Hnodup. apply NoDup_app in Hnodup as (_ & Hdisj & _).
      intros Hin. apply (Hdisj k Hin). simpl. by left.
Qed.

(** X15.  When the scheduler's output is in ASCII and, stripped, is a row
    of fields [key=value] with single spaces between them, the keys distinct
    and free of [=] and of spaces and the values free of spaces,
    [scontrol_job] answers the object with exactly these members, in their
    order, each value a string. *)
Theorem scontrol_job_reads_fields
    (svc : Services) (request : Request) (log : list AwsCall)
    (job_id output : string) (fields : Dict.t) :
  args_get "job_id" request = Some job_id ->
  job_id <> EmptyString ->
  ssm_outcome svc
    (SsmCommand (args_get "region" request) (args_get "instance_id" request)
       (ssm_user request) ("scontrol show job " +:+ job_id +:+ " -o"))
    = Return (SsmOutput output) ->
  isascii output = true ->
  fields <> [] ->
  NoDup (fields.*1) ->
  Forall (fun kv : string * string =>
            Py.count "=" kv.1 = 0 /\ Py.count " " kv.1 = 0 /\ Py.count " " kv.2 = 0)
    fields ->
  strip output = Py.join " " (List.map (fun kv => kv.1 +:+ "=" +:+ kv.2) fields) ->
  (scontrol_job svc request log).1
  = Return (Plain (JObj (List.map (fun kv => (kv.1, JStr kv.2)) fields))).
Proof.
  intros Hjob Hne Hout _ Hfields Hnodup Hclean Hrow. unfold scontrol_job. rewrite Hjob.
  destruct job_id; [done |].
  unfold ssm_command, aws_bind at 1. simpl negb. cbn iota. rewrite Hout, Hrow.
  rewrite (split_join " ").
  - rewrite List.map_map.
    assert (Hcut : List.map (fun kv : string * string =>
                               Py.split_max "=" 1 (kv.1 +:+ "=" +:+ kv.2)) fields
                   = List.map (fun kv => [kv.1; kv.2]) fields).
    { clear -Hclean. induction Hclean as [|[k v] fields (Hk & _ & _) _ IH];
        simpl; [done |]. rewrite IH. f_equal.
      change (k +:+ "=" +:+ v) with (k +:+ String "=" v).
      by rewrite split_max_append, split_max_zero. }
    rewrite Hcut. unfold aws_bind, aws_lift, aws_ret.
    by rewrite (dict_of_pairs_fresh fields []).
  - by destruct fields.
  - clear -Hclean. induction Hclean as [|[k v] fields (_ & Hk & Hv) _ IH];
      simpl; constructor; [| done].
    change (k +:+ "=" +:+ v) with (k +:+ String "=" v).
    rewrite count_append. simpl in *. lia.
Qed.

Lemma scontrol_job_fields_witness :
  (scontrol_job Scene.svc (Scene.with_query [("job_id", "7")] (Return JNull)) []).1
  = Return (Plain (JObj [("JobId", JStr "7"); ("JobName", JStr "sim")])).
Proof.
  apply (scontrol_job_reads_fields Scene.svc _ [] "7" "JobId=7 JobName=sim"
           [("JobId", "7"); ("JobName", "sim")]); try done.
  - apply NoDup_cons. split; [| apply NoDup_singleton].
    intros Hin%list_elem_of_singleton. discriminate.
  - repeat constructor.
Defined.

(** X16.  A job without a [command] is not submitted: [submit_job]
    raises [KeyError("command")] and runs nothing on the cluster, whatever
    else the body holds. *)
Theorem submit_job_needs_command
    (svc : Services) (request : Request) (log : list AwsCall)
    (members : list (string * Json)) :
  json request = Return (JObj members) ->
  json_lookup "command" members = None ->
  submit_job svc request log = (Raise (KeyError "command"), log).
Proof.
  intros Hbody Hcommand. unfold submit_job, aws_bind, aws_lift, aws_raise.
  rewrite Hbody. by rewrite json_lookup_remove_ne, Hcommand.
Qed.

Lemma submit_job_needs_command_witness :
  submit_job Scene.svc
    (Scene.with_query [] (Return (JObj [("wrap", JBool true); ("nodes", JNum 2)]))) []
  = (Raise (KeyError "command"), []).
Proof.
  by apply (submit_job_needs_command Scene.svc _ []
              [("wrap", JBool true); ("nodes", JNum 2)]).
Defined.

(** ** Roles and groups *)

#[local] Set Warnings "-clear-no-such-hyp".
Ltac groups_goal :=
  repeat split;
  try (intros other Hother; by rewrite !lookup_insert_ne);
  intros;
  rewrite ?elem_of_difference, ?elem_of_union, ?elem_of_singleton in *;
  naive_solver.

(** X17.  [set_user_role] makes the roles cumulative.  For a role among
    guest, user and admin, and when the directory answers every call, the
    group calls it makes leave the user in the group user exactly when the
    role is not guest and in the group admin exactly when the role is
    admin, whatever the user's groups were before: an admin is always a user
    as well.  The user's other groups and every other user's groups are not
    touched. *)
Theorem set_user_role_sets_groups
    (svc : Services) (cfg : Config) (request : Request) (log : list AwsCall)
    (body : Json) (user role : string) :
  boto3_client svc "cognito-idp" None = Return tt ->
  json request = Return body ->
  json_item "username" body = Return (JStr user) ->
  json_item "role" body = Return (JStr role) ->
  role ∈ ["guest"; "user"; "admin"] ->
  (forall c, exists j, aws_answer svc c = Return j) ->
  exists calls answer,
    set_user_role svc cfg request log = (Return answer, (log ++ calls)%list)
    /\ forall groups : gmap string (gset string),
        let after := directory_after calls groups in
        ("user" ∈ default ∅ (after !! user) <-> role <> "guest")
        /\ ("admin" ∈ default ∅ (after !! user) <-> role = "admin")
        /\ (forall g, g <> "user" -> g <> "admin" ->
              g ∈ default ∅ (after !! user) <-> g ∈ default ∅ (groups !! user))
        /\ (forall other, other <> user -> after !! other = groups !! other).
Proof.
  intros Hclient Hbody Huser Hrole Hknown Hok.
  unfold set_user_role, aws_bind, aws_lift, aws_call.
  rewrite Hclient, Hbody, Huser, Hrole.
  assert (Hrun : forall c1 c2 c3 : AwsCall,
    exists answer,
      (let (r, log') := (aws_answer svc c1, (log ++ [c1])%list) in
       match r with
       | Return _ =>
           let (r, log') := (aws_answer svc c2, (log' ++ [c2])%list) in
           match r with
           | Return _ => (aws_answer svc c3, (log' ++ [c3])%list)
           | Raise e => (Raise e, log')
           end
       | Raise e => (Raise e, log')
       end) = (Return answer, (log ++ [c1; c2; c3])%list)).
  { intros c1 c2 c3.
    destruct (Hok c1) as [j1 ->]. destruct (Hok c2) as [j2 ->].
    destruct (Hok c3) as [j3 ->]. exists j3. by rewrite <- !app_assoc. }
  rewrite !elem_of_cons, elem_of_nil in Hknown.
  destruct Hknown as [->|[->|[->|[]]]]; cbn iota beta.
  - destruct (Hrun (CognitoRemoveUserFromGroup (USER_POOL_ID cfg) (JStr user) "user")
                (CognitoRemoveUserFromGroup (USER_POOL_ID cfg) (JStr user) "admin")
                (CognitoReadUser (USER_POOL_ID cfg) (JStr user))) as [answer Hcalls].
    eexists _, answer. split; [exact Hcalls |].
    intros groups. unfold directory_after. simpl.
    rewrite !lookup_insert_eq. simpl. groups_goal.
  - destruct (Hrun (CognitoAddUserToGroup (USER_POOL_ID cfg) (JStr user) "user")
                (CognitoRemoveUserFromGroup (USER_POOL_ID cfg) (JStr user) "admin")
                (CognitoReadUser (USER_POOL_ID cfg) (JStr user))) as [answer Hcalls].
    eexists _, answer. split; [exact Hcalls |].
    intros groups. unfold directory_after. simpl.
    rewrite !lookup_insert_eq. simpl. groups_goal.
  - destruct (Hrun (CognitoAddUserToGroup (USER_POOL_ID cfg) (JStr user) "user")
                (CognitoAddUserToGroup (USER_POOL_ID cfg) (JStr user) "admin")
                (CognitoReadUser (USER_POOL_ID cfg) (JStr user))) as [answer Hcalls].
    eexists _, answer. split; [exact Hcalls |].
    intros groups. unfold directory_after. simpl.
    rewrite !lookup_insert_eq. simpl. groups_goal.
Qed.

(** Making alice an admin. *)
Lemma set_user_role_witness :
  exists calls answer,
    set_user_role Scene.svc Demo.deployed
      (Scene.with_query []
         (Return (JObj [("username", JStr "alice"); ("role", JStr "admin")]))) []
    = (Return answer, ([] ++ calls)%list)
    /\ forall groups : gmap string (gset string),
        let after := directory_after calls groups in
        ("user" ∈ default ∅ (after !! "alice") <-> "admin" <> "guest")
        /\ ("admin" ∈ default ∅ (after !! "alice") <-> "admin" = "admin")
        /\ (forall g, g <> "user" -> g <> "admin" ->
              g ∈ default ∅ (after !! "alice") <-> g ∈ default ∅ (groups !! "alice"))
        /\ (forall other, other <> "alice" -> after !! other = groups !! other).
Proof.
  apply (set_user_role_sets_groups Scene.svc Demo.deployed _ []
           (JObj [("username", JStr "alice"); ("role", JStr "admin")]) "alice" "admin");
    try reflexivity.
  - rewrite !elem_of_cons. tauto.
  - intros c. by eexists.
Defined.

(** ** The cluster configuration *)

(** X18.  [get_cluster_config_text] asks the back end once, with a signed
    GET that carries no body.  An answer with any status but 200 is handed
    back as it is, its JSON document with its status code, and nothing is
    fetched; on a 200 the text fetched from the address found under
    [clusterConfiguration] and [url] is returned, and a document without
    these members raises. *)
Theorem get_cluster_config_text_relays
    (ext : Externals) (svc : Services) (cfg : Config)
    (cluster_name region : option string) (w : World) (c : OutCall)
    (resp : Response) (j : Json) (r : result Answer) :
  get_cluster_config_text ext svc cfg cluster_name region w = (r, (w ++ [c])%list) ->
  send ext c = Return resp ->
  body resp = JsonBody j ->
  call_verb c = "get" /\ call_data c = None /\ call_timeout c = Some 30%Z
  /\ (status_code resp <> 200%Z -> r = Return (WithStatus j (status_code resp)))
  /\ (status_code resp = 200%Z ->
      match json_item "clusterConfiguration" j with
      | Raise e => r = Raise e
      | Return configuration =>
          match json_item "url" configuration with
          | Raise e => r = Raise e
          | Return location =>
              match requests_get_text svc location with
              | Raise e => r = Raise e
              | Return text => r = Return (Text text)
              end
          end
      end).
Proof.
  intros Hrun Hsend Hbody. unfold get_cluster_config_text in Hrun.
  set (call := match region with
               | Some r0 =>
                   if Py.str_truthy r0
                   then sigv4_request ext "GET" (API_BASE_URL cfg)
                          (Some ("/v3/clusters/" +:+ Py.fmt cluster_name))
                          [("region", r0)] [] JNull
                   else sigv4_request ext "GET" (API_BASE_URL cfg)
                          (Some ("/v3/clusters/" +:+ Py.fmt cluster_name)) [] [] JNull
               | None => sigv4_request ext "GET" (API_BASE_URL cfg)
                           (Some ("/v3/clusters/" +:+ Py.fmt cluster_name)) [] [] JNull
               end) in Hrun.
  assert (Hgrew : (w ++ [c])%list <> w).
  { intros Hw. apply (f_equal length) in Hw. rewrite length_app in Hw.
    simpl in Hw. lia. }
  assert (Hcall : forall out w', call w = (out, w') ->
            (w' = w /\ exists e, out = Raise e)
            \/ exists c', w' = (w ++ [c'])%list /\ out = send ext c'
                          /\ call_verb c' = "get" /\ call_data c' = None
                          /\ call_timeout c' = Some 30%Z).
  { intros out w' Hc.
    assert (Hone : forall params,
      sigv4_request ext "GET" (API_BASE_URL cfg)
        (Some ("/v3/clusters/" +:+ Py.fmt cluster_name)) params [] JNull w = (out, w') ->
      (w' = w /\ exists e, out = Raise e)
      \/ exists c', w' = (w ++ [c'])%list /\ out = send ext c'
                    /\ call_verb c' = "get" /\ call_data c' = None
                    /\ call_timeout c' = Some 30%Z).
    { intros params Hp.
      destruct (sigv4_request_cases ext "GET" (API_BASE_URL cfg)
                  (Some ("/v3/clusters/" +:+ Py.fmt cluster_name)) params [] JNull w)
        as [[e He]|[c' (Hc' & Ht & Hd)]]; rewrite Hp in *.
      - injection He as -> ->. left. split; [done | by exists e].
      - injection Hc' as -> ->. right. exists c'. repeat split; try done.
        assert (Hne : (w ++ [c'])%list <> w).
        { intros Hw. apply (f_equal length) in Hw. rewrite length_app in Hw.
          simpl in Hw. lia. }
        destruct (sigv4_request_inv _ _ _ _ _ _ _ _ _ _ Hp Hne)
          as (h & a & b & reg & d & cr & verb & c'' & _ & _ & _ & Hverb & Hw & _
              & Hv & _).
        apply app_inv_head in Hw. injection Hw as <-.
        rewrite Hv. unfold req_call in Hverb. simpl in Hverb. by injection Hverb. }
    subst call. destruct region as [r0|]; [destruct (Py.str_truthy r0) |];
      by eapply Hone. }
  unfold bind at 1 in Hrun.
  destruct (call w) as [out w'] eqn:Hc.
  destruct (Hcall out w' eq_refl) as [[-> [e ->]]|(c' & -> & -> & Hverb & Hdata & Htime)].
  { injection Hrun as _ Hw. by destruct Hgrew. }
  assert (c' = c) as ->.
  { revert Hrun. unfold bind, lift, ret.
    repeat case_match; simplify_eq; intros Hrun; injection Hrun as Hr Hw;
      apply app_inv_head in Hw; by injection Hw. }
  rewrite Hsend in Hrun. repeat split; try done.
  - intros Hstatus. unfold bind, lift, ret, response_json in Hrun.
    rewrite Hbody in Hrun.
    destruct (status_code resp =? 200)%Z eqn:Heq; [lia |]. simpl in Hrun.
    by injection Hrun as <-.
  - intros Hstatus. unfold bind, lift, ret, response_json in Hrun.
    rewrite Hbody, Hstatus in Hrun. simpl in Hrun.
    destruct (json_item "clusterConfiguration" j) as [cc|?];
      [| by injection Hrun as <-].
    destruct (json_item "url" cc) as [u|?]; [| by injection Hrun as <-].
    destruct (requests_get_text svc u); by injection Hrun as <-.
Qed.

(** The back end knows no such cluster. *)
Lemma get_cluster_config_text_witness :
  exists c,
    get_cluster_config_text Demo.ext Scene.svc Demo.deployed (Some "missing")
      (Some "us-east-1") []
    = (Return (WithStatus (JObj [("message", JStr "cluster not found")]) 404), [c]).
Proof.
  assert (Hrun : exists r c,
    get_cluster_config_text Demo.ext Scene.svc Demo.deployed (Some "missing")
      (Some "us-east-1") [] = (r, ([] ++ [c])%list)) by (do 2 eexists; by vm_compute).
  destruct Hrun as (r & c & Hrun). exists c. rewrite Hrun. simpl. f_equal.
  destruct (get_cluster_config_text_relays Demo.ext Scene.svc Demo.deployed
              (Some "missing") (Some "us-east-1") [] c Demo.not_found
              (JObj [("message", JStr "cluster not found")]) r Hrun
              ltac:(reflexivity) ltac:(reflexivity)) as (_ & _ & _ & Hrelay & _).
  by apply Hrelay.
Defined.

(** ** The identity and the session *)

Section IdentityFacts.

Variable ext : Externals.
Variable svc : Services.
Variable cfg : Config.
Variable request : Request.

Lemma decode_identity_inv token i :
  decode_identity ext svc cfg token = Return i ->
  exists decoded,
    jwt_decode ext token (USER_POOL_ID cfg) = Return decoded
    /\ identity_groups i = cognito_groups decoded.
Proof.
  unfold decode_identity. intros Hi.
  destruct (jwt_decode ext token (USER_POOL_ID cfg)) as [decoded|e]; [| done].
  exists decoded. split; [done |].
  destruct (username decoded) as [name|]; [| by injection Hi as <-].
  destruct (Py.str_truthy name); [| by injection Hi as <-].
  destruct (cognito_user_attributes svc (USER_POOL_ID cfg) _); [| done].
  by injection Hi as <-.
Qed.

(** X19.  The identity the interface is shown and the gate agree on the
    roles: whenever [get_identity] answers an identity, the gate lets the
    same request through for guest, user or admin exactly when that role is
    guest or is listed in the identity's groups.  This holds in local mode
    and with authorization disabled too, where the identity is given both
    groups and the gate lets everything through. *)
Theorem identity_agrees_with_gate (i : Identity) (group : string) :
  get_identity ext svc cfg request = Return (IdentityOf i) ->
  group ∈ ["guest"; "user"; "admin"] ->
  authenticate ext cfg request group = Return None
  <-> group = "guest" \/ group ∈ default [] (identity_groups i).
Proof.
  intros Hid Hgroup. unfold get_identity in Hid.
  assert (Hboth : forall i', identity_groups i' = Some ["user"; "admin"] ->
            group = "guest" \/ group ∈ default [] (identity_groups i')).
  { intros i' ->. simpl. rewrite !elem_of_cons in *. tauto. }
  destruct (running_local cfg) eqn:Hloc.
  { injection Hid as <-. rewrite authenticate_local by done.
    split; [intros _; by apply Hboth | done]. }
  destruct (cookies request !! "accessToken") as [token|] eqn:Hcookie; [| done].
  destruct (decide (token = EmptyString)) as [->|Hne]; [done |].
  assert (Py.str_truthy token = true) as Htruthy by (by destruct token).
  rewrite Htruthy in Hid. simpl in Hid.
  destruct (decode_identity ext svc cfg token) as [i0|e] eqn:Hdecode;
    [| by destruct e].
  destruct (decode_identity_inv token i0 Hdecode) as (decoded & Hdec & Hgroups).
  rewrite (authenticate_with_token ext cfg request group token Hloc Hcookie Hne), Hdec.
  destruct (disable_auth cfg).
  { injection Hid as <-. split; [intros _; by apply Hboth | done]. }
  injection Hid as <-. rewrite Hgroups. simpl.
  destruct (decide (group = "guest")) as [Hg|Hg].
  { rewrite (bool_decide_eq_true_2 _ Hg). simpl. split; [by left | done]. }
  rewrite (bool_decide_eq_false_2 _ Hg). simpl.
  destruct (decide (group ∈ default [] (cognito_groups decoded))) as [Hin|Hin].
  - rewrite bool_decide_eq_true_2 by (by apply elem_of_groups_of).
    split; [by right | done].
  - rewrite bool_decide_eq_false_2 by (by intros ?%elem_of_groups_of).
    split; [done | by intros [?|?]].
Qed.

(** X20.  A forged token is handled by neither reader of the cookie:
    [jwt.decode] raises [JWTError] for it, which the gate and
    [get_identity] both let through, so that outside local mode either of
    them ends in that uncaught error. *)
Theorem forged_token_raises_in_both (token group : string) :
  running_local cfg = false ->
  cookies request !! "accessToken" = Some token ->
  token <> EmptyString ->
  jwt_decode ext token (USER_POOL_ID cfg) = Raise JWTError ->
  authenticate ext cfg request group = Raise JWTError
  /\ get_identity ext svc cfg request = Raise JWTError.
Proof.
  intros Hloc Hcookie Hne Hdec. split.
  - by rewrite (authenticate_with_token ext cfg request group token Hloc Hcookie Hne), Hdec.
  - unfold get_identity, decode_identity. rewrite Hloc, Hcookie, Hdec.
    by destruct token.
Qed.

(** X21.  [get_identity] refuses with 401 and nothing else, only outside
    local mode, and exactly for a request without a token or one on which
    decoding raised the expiry error; it never raises that error itself. *)
Theorem get_identity_refusals :
  get_identity ext svc cfg request <> Raise ExpiredSignatureError
  /\ ((exists j code, get_identity ext svc cfg request = Return (IdentityRefused j code))
      <-> running_local cfg = false
          /\ (cookies request !! "accessToken" = None
              \/ cookies request !! "accessToken" = Some EmptyString
              \/ exists token,
                  cookies request !! "accessToken" = Some token
                  /\ decode_identity ext svc cfg token = Raise ExpiredSignatureError))
  /\ (forall j code,
        get_identity ext svc cfg request = Return (IdentityRefused j code) ->
        code = 401%Z).
Proof.
  split; [| split; [split |]].
  - unfold get_identity. repeat case_match; congruence.
  - intros (j & code & Hr). unfold get_identity in Hr.
    destruct (running_local cfg); [done |]. split; [done |].
    destruct (cookies request !! "accessToken") as [token|]; [| by left].
    destruct token as [|c token]; [by right; left |].
    right. right. exists (String c token). split; [done |].
    simpl negb in Hr. cbn iota in Hr.
    destruct (decode_identity ext svc cfg (String c token)) as [i|e];
      [by destruct (disable_auth cfg) |].
    by destruct e.
  - intros [Hloc Hstate]. unfold get_identity. rewrite Hloc.
    destruct Hstate as [->|[->|(token & -> & Hexp)]]; [by eexists _, _ .. |].
    destruct token as [|c token]; [by eexists _, _ |].
    simpl negb. cbn iota. rewrite Hexp. by eexists _, _.
  - intros j code Hr. unfold get_identity in Hr.
    repeat case_match; congruence.
Qed.

(** X22.  Whatever [login] answers is one of two responses: the redirect
    to the identity provider, the very response with which the gate stops a
    request (no code, or no token for the code), or the redirect to
    [/index.html] that sets the session cookie [accessToken] to the token
    the token endpoint gave, which is not empty. *)
Theorem login_outcomes (resp : FlaskResponse) :
  login svc cfg request = Return resp ->
  resp = auth_redirect cfg
  \/ exists code token,
      args_get "code" request = Some code
      /\ code <> EmptyString
      /\ token <> EmptyString
      /\ token_endpoint svc (Py.fmt (AUTH_PATH cfg) +:+ "/oauth2/token")
           [("grant_type", Some "authorization_code"); ("code", Some code);
            ("client_id", CLIENT_ID cfg);
            ("redirect_uri", Some (Py.fmt (SITE_URL cfg) +:+ "/login"))]
           (CLIENT_ID cfg) (CLIENT_SECRET svc) = Return (Some token)
      /\ resp = {| status := 302; location := "/index.html";
                   set_cookies := [{| cookie_name := "accessToken";
                                      cookie_value := token;
                                      cookie_expires := None |}] |}.
Proof.
  unfold login, auth_redirect. intros Hlogin.
  destruct (args_get "code" request) as [code|]; [| left; by injection Hlogin as <-].
  destruct code as [|a code]; [left; by injection Hlogin as <- |].
  simpl negb in Hlogin. cbn iota in Hlogin.
  destruct (token_endpoint svc _ _ _ _) as [[token|]|e] eqn:Htoken;
    [| left; by injection Hlogin as <- | done].
  destruct token as [|b token]; [left; by injection Hlogin as <- |].
  right. exists (String a code), (String b token).
  injection Hlogin as <-. by repeat split.
Qed.

End IdentityFacts.

(** A user's identity and the gates. *)
Lemma identity_agrees_witness :
  authenticate Demo.ext Demo.deployed Demo.as_user "admin" = Return None
  <-> "admin" = "guest" \/ "admin" ∈ ["user"].
Proof.
  apply (identity_agrees_with_gate Demo.ext Scene.svc Demo.deployed Demo.as_user
           {| identity_groups := Some ["user"];
              identity_username := Some "alice";
              identity_attributes := Some (attributes_dict [("email", "alice@example.com")]) |}
           "admin").
  - reflexivity.
  - rewrite !elem_of_cons. tauto.
Defined.

Lemma forged_token_witness :
  authenticate Demo.ext Demo.deployed Demo.forged "user" = Raise JWTError
  /\ get_identity Demo.ext Scene.svc Demo.deployed Demo.forged = Raise JWTError.
Proof.
  apply (forged_token_raises_in_both Demo.ext Scene.svc Demo.deployed Demo.forged
           "forged-token" "user"); by vm_compute.
Defined.

(** The code the identity provider sent back is good. *)
Lemma login_outcomes_witness :
  exists resp,
    login Scene.svc Demo.deployed
      (Demo.request_with None [("code", "good-code")] [] (Return JNull)) = Return resp
    /\ (resp = auth_redirect Demo.deployed
        \/ exists token,
            token <> EmptyString
            /\ set_cookies resp = [{| cookie_name := "accessToken";
                                      cookie_value := token;
                                      cookie_expires := None |}]).
Proof.
  eexists. split; [reflexivity |].
  destruct (login_outcomes Scene.svc Demo.deployed
              (Demo.request_with None [("code", "good-code")] [] (Return JNull))
              _ eq_refl) as [Hredirect|(code & token & _ & _ & Hne & _ & Hresp)].
  - by left.
  - right. exists token. split; [done |]. by rewrite Hresp.
Defined.
